(** * The WeChat-Shopify bridge: [server.js] and its earlier variant

    A shallow embedding of the two Express handlers ([GET /api/stock] and
    [POST /api/create-order]) and of [shopifyAdminGraphQL], the one
    function through which they reach the Shopify Admin API.

    JavaScript values are JSON values or [undefined]; an upstream call
    is a step of a small state-and-exception monad that records every
    [fetch] and every [console.error]. *)

From Stdlib Require Import ZArith String List Bool Lia DecimalString.
Import ListNotations.
Local Open Scope string_scope.
Local Open Scope Z_scope.
Set Warnings "-register-all".

(** ** Values *)

(** What [JSON.parse] yields.  Numbers are the integers (GraphQL [Int]
    and HTTP status codes); an object lists its properties, each name
    once. *)
Inductive json : Type :=
| JNull
| JBool (b : bool)
| JNum (n : Z)
| JStr (s : string)
| JArr (items : list json)
| JObj (props : list (string * json)).

(** A JavaScript value of the handlers: [None] is [undefined]. *)
Definition value : Type := option json.

Definition undefined : value := None.
Definition str (s : string) : value := Some (JStr s).
Definition num (n : Z) : value := Some (JNum n).

(** ToBoolean: [undefined], [null], [false], [0] and the empty string
    are falsy, everything else (arrays and objects included) is truthy. *)
Definition truthy (v : value) : bool :=
  match v with
  | None | Some JNull | Some (JBool false) | Some (JNum 0) | Some (JStr "") => false
  | _ => true
  end.

(** [a || b] *)
Definition or_else (a b : value) : value := if truthy a then a else b.

(** [a ?? b] *)
Definition coalesce (a b : value) : value :=
  match a with
  | None | Some JNull => b
  | _ => a
  end.

Fixpoint assoc (k : string) (props : list (string * json)) : value :=
  match props with
  | [] => None
  | (k', v) :: rest => if String.eqb k k' then Some v else assoc k rest
  end.

(** An object literal as [JSON.stringify] writes it, for [fetch]'s body
    and for [res.json]: a property whose value is [undefined] is left
    out. *)
Fixpoint defined (fields : list (string * value)) : list (string * json) :=
  match fields with
  | [] => []
  | (k, Some v) :: rest => (k, v) :: defined rest
  | (_, None) :: rest => defined rest
  end.

Definition object (fields : list (string * value)) : json :=
  JObj (defined fields).

(** ** Exceptions, the console and the upstream *)

Inductive exn : Type :=
| Error (message : value)         (* throw new Error(message) *)
| TypeError (reading : string)    (* a property read on undefined or null *)
| FetchError (reason : string)    (* fetch rejected: no response *)
| InvalidJson.                    (* res.json() rejected *)

Inductive logged : Type :=
| LValue (v : value)
| LError (e : exn).

Record fetch_request : Type := {
  url : string;
  method : string;
  headers : list (string * value);
  body : json                     (* the value given to JSON.stringify *)
}.

Inductive fetch_result : Type :=
| NetworkFailure (reason : string)
| HttpResponse (status : Z) (payload : option json).  (* None: not JSON *)

(** The upstream answers a request in view of the requests the handler
    sent before it. *)
Definition upstream : Type := list fetch_request -> fetch_request -> fetch_result.

(** Answers that do not look at the request: the k-th call gets the
    k-th entry. *)
Definition scripted (script : list fetch_result) : upstream :=
  fun earlier _ => nth (length earlier) script (NetworkFailure "script exhausted").

Record world : Type := {
  calls : list fetch_request;               (* oldest first *)
  console : list (list logged)              (* one entry per console.error *)
}.

Definition start : world := {| calls := []; console := [] |}.

Inductive outcome (A : Type) : Type :=
| Ret (a : A)
| Throw (e : exn).
Arguments Ret {A} a.
Arguments Throw {A} e.

Definition M (A : Type) : Type := world -> outcome A * world.

Definition ret {A} (a : A) : M A := fun w => (Ret a, w).

Definition throw {A} (e : exn) : M A := fun w => (Throw e, w).

Definition bind {A B} (m : M A) (k : A -> M B) : M B :=
  fun w =>
    match m w with
    | (Ret a, w') => k a w'
    | (Throw e, w') => (Throw e, w')
    end.

(** [try { body } catch (err) { handler }] *)
Definition try_catch {A} (body : M A) (handler : exn -> M A) : M A :=
  fun w =>
    match body w with
    | (Ret a, w') => (Ret a, w')
    | (Throw e, w') => handler e w'
    end.

Definition console_error (args : list logged) : M unit :=
  fun w => (Ret tt, {| calls := calls w; console := console w ++ [args] |}).

Declare Scope js_scope.
Delimit Scope js_scope with js.
Notation "x <- m ;; k" := (bind m (fun x => k))
  (at level 100, m at next level, right associativity) : js_scope.
Notation "m ;;; k" := (bind m (fun _ => k))
  (at level 100, right associativity) : js_scope.
Local Open Scope js_scope.

(** ** Property reads *)

(** [v.k] for the names the handlers read, none of which is inherited
    from a prototype.  Reading from [undefined] or [null] throws. *)
Definition prop (v : value) (k : string) : outcome value :=
  match v with
  | None | Some JNull => Throw (TypeError k)
  | Some (JObj props) => Ret (assoc k props)
  | Some (JArr items) =>
      Ret (if String.eqb k "length" then num (Z.of_nat (List.length items)) else None)
  | Some (JStr s) =>
      Ret (if String.eqb k "length" then num (Z.of_nat (String.length s)) else None)
  | Some (JNum _) | Some (JBool _) => Ret None
  end.

(** [v[0]] *)
Definition first_of (v : value) : outcome value :=
  match v with
  | None | Some JNull => Throw (TypeError "0")
  | Some (JObj props) => Ret (assoc "0" props)
  | Some (JArr items) => Ret (nth_error items 0)
  | Some (JStr s) =>
      Ret (match s with
           | EmptyString => None
           | String c _ => str (String c EmptyString)
           end)
  | Some (JNum _) | Some (JBool _) => Ret None
  end.

Definition lift {A} (o : outcome A) : M A := fun w => (o, w).

Definition get (v : value) (k : string) : M value := lift (prop v k).

Definition index0 (v : value) : M value := lift (first_of v).

(** [v?.k] *)
Definition get_opt (v : value) (k : string) : M value :=
  match v with
  | None | Some JNull => ret None
  | _ => get v k
  end.

(** ** Configuration *)

Record process_env : Type := {
  env_SHOPIFY_DOMAIN : option string;
  env_SHOPIFY_ADMIN_TOKEN : option string;
  env_PORT : option string
}.

Definition env_value (x : option string) : value := option_map JStr x.

(** [process.env.NAME || fallback], both strings *)
Definition env_or (x : option string) (fallback : string) : string :=
  match x with
  | Some (String c s) => String c s
  | _ => fallback
  end.

Definition SHOPIFY_DOMAIN (e : process_env) : string :=
  env_or (env_SHOPIFY_DOMAIN e) "edd11f-2.myshopify.com".

Definition API_VERSION : string := "2024-07".

Definition PORT (e : process_env) : value :=
  or_else (env_value (env_PORT e)) (num 3000).

(** The two files of the repository are the same program up to four
    places; a [source] holds them. *)
Record source : Type := {
  ADMIN_TOKEN : process_env -> value;
  missing_token : string;          (* message of the error thrown without a token *)
  orderMutation : string;
  mutation_variable : string       (* name under which orderInput is sent *)
}.

Definition server_js : source := {|
  ADMIN_TOKEN := fun e => env_value (env_SHOPIFY_ADMIN_TOKEN e);
  missing_token := "Missing SHOPIFY_ADMIN_TOKEN (Admin API token)";
  orderMutation := "
      mutation createOrder($order: OrderCreateOrderInput!) {
        orderCreate(order: $order) {
          order {
            id
            name
            email
            totalPriceSet {
              shopMoney { amount currencyCode }
            }
          }
          userErrors {
            field
            message
          }
        }
      }
    ";
  mutation_variable := "order"
|}.

Definition part_000 : source := {|
  ADMIN_TOKEN := fun e => or_else (env_value (env_SHOPIFY_ADMIN_TOKEN e)) (str "");
  missing_token := "Missing SHOPIFY_ADMIN_TOKEN env var";
  orderMutation := "
      mutation createOrder($input: OrderInput!) {
        orderCreate(input: $input) {
          order {
            id
            name
            email
            totalPriceSet {
              shopMoney { amount currencyCode }
            }
          }
          userErrors {
            field
            message
          }
        }
      }
    ";
  mutation_variable := "input"
|}.

Definition stockQuery : string := "
      query getStock($id: ID!) {
        product(id: $id) {
          id
          totalInventory
        }
      }
    ".

Definition variantQuery : string := "
      query getVariant($id: ID!) {
        product(id: $id) {
          id
          title
          variants(first: 1) {
            edges {
              node {
                id
              }
            }
          }
        }
      }
    ".

(** Start-up: the module reads its configuration into constants,
    registers the two routes and calls [app.listen(PORT, callback)].
    What [listen] does with a port is the platform's affair and is
    taken as given: [None] when the socket is bound and the callback
    runs, [Some x] when [listen] throws [x] (a port out of range) or
    the server emits [x] with nobody to handle it (a port in use). *)
Record config : Type := {
  cfg_domain : string;
  cfg_token : value;
  cfg_version : string
}.

Inductive startup : Type :=
| Listening (cfg : config) (port : value) (banner : list logged)
| StartupFailure (e : exn).

Definition main (src : source) (listen : value -> option exn) (e : process_env) : startup :=
  let cfg := {| cfg_domain := SHOPIFY_DOMAIN e;
                cfg_token := ADMIN_TOKEN src e;
                cfg_version := API_VERSION |} in
  match listen (PORT e) with
  | None =>
      Listening cfg (PORT e)
        [LValue (str "Wechat-Shopify server running on port"); LValue (PORT e)]
  | Some x => StartupFailure x
  end.

Definition started (s : startup) : bool :=
  match s with
  | Listening _ _ _ => true
  | StartupFailure _ => false
  end.

(** The environment [e] with [SHOPIFY_ADMIN_TOKEN] set to [t], or unset. *)
Definition with_token (t : option string) (e : process_env) : process_env := {|
  env_SHOPIFY_DOMAIN := env_SHOPIFY_DOMAIN e;
  env_SHOPIFY_ADMIN_TOKEN := t;
  env_PORT := env_PORT e
|}.

(** ** The upstream call *)

Definition string_of_Z (n : Z) : string := NilZero.string_of_int (Z.to_int n).

Definition graphql_url (e : process_env) : string :=
  "https://" ++ SHOPIFY_DOMAIN e ++ "/admin/api/" ++ API_VERSION ++ "/graphql.json".

Definition graphql_request (src : source) (e : process_env)
    (query : string) (variables : value) : fetch_request := {|
  url := graphql_url e;
  method := "POST";
  headers := [("Content-Type", str "application/json");
              ("X-Shopify-Access-Token", ADMIN_TOKEN src e)];
  body := object [("query", str query); ("variables", variables)]
|}.

(** [await fetch(url, init)]: the call is recorded, then the upstream
    answers or the promise rejects. *)
Definition fetch (up : upstream) (rq : fetch_request) : M (Z * option json) :=
  fun w =>
    let w' := {| calls := calls w ++ [rq]; console := console w |} in
    match up (calls w) rq with
    | NetworkFailure reason => (Throw (FetchError reason), w')
    | HttpResponse status payload => (Ret (status, payload), w')
    end.

(** [await res.json()] *)
Definition res_json (payload : option json) : M value :=
  match payload with
  | Some j => ret (Some j)
  | None => throw InvalidJson
  end.

(** [res.ok] *)
Definition ok (status : Z) : bool := (200 <=? status) && (status <=? 299).

Definition shopifyAdminGraphQL (src : source) (e : process_env) (up : upstream)
    (query : string) (variables : value) : M value :=
  if negb (truthy (ADMIN_TOKEN src e)) then
    throw (Error (str (missing_token src)))
  else
    res <- fetch up (graphql_request src e query variables) ;;
    json <- res_json (snd res) ;;
    if negb (ok (fst res)) then
      console_error [LValue (str "Shopify HTTP error"); LValue (num (fst res)); LValue json] ;;;
      throw (Error (str ("Shopify HTTP " ++ string_of_Z (fst res))))
    else
      errors <- get json "errors" ;;
      if truthy errors then
        console_error [LValue (str "Shopify GraphQL errors"); LValue errors] ;;;
        first <- index0 errors ;;
        message <- get_opt first "message" ;;
        throw (Error (or_else message (str "Shopify GraphQL error")))
      else
        get json "data".

(** ** The handlers *)

Record request : Type := {
  query : list (string * json);   (* req.query *)
  req_body : value                (* req.body, as express.json() left it *)
}.

(** [res.status(code).json(sent)]; [res.json(sent)] alone is a 200. *)
Record response : Type := {
  status : Z;
  sent : json
}.

Definition internal_error : response :=
  {| status := 500; sent := object [("error", str "Internal error")] |}.

Section Handlers.

(** ToNumber of a string, an array or an object goes through the
    engine's ToPrimitive and StringToNumber; [None] is NaN.  The
    handlers hold for whatever the engine answers there. *)
Variable engine_ToNumber : json -> option Z.

Definition ToNumber (v : value) : option Z :=
  match v with
  | None => None
  | Some JNull => Some 0
  | Some (JBool b) => Some (if b then 1 else 0)
  | Some (JNum n) => Some n
  | Some j => engine_ToNumber j
  end.

(** [a > b]: false as soon as a side is NaN *)
Definition gt (a b : value) : bool :=
  match ToNumber a, ToNumber b with
  | Some x, Some y => y <? x
  | _, _ => false
  end.

Variable src : source.
Variable e : process_env.
Variable up : upstream.

Definition stock_body (req : request) : M response :=
  let productId := assoc "productId" (query req) in
  if negb (truthy productId) then
    ret {| status := 400; sent := object [("error", str "Missing productId")] |}
  else
    data <- shopifyAdminGraphQL src e up stockQuery (Some (object [("id", productId)])) ;;
    product <- get data "product" ;;
    if negb (truthy product) then
      ret {| status := 404; sent := object [("error", str "Product not found")] |}
    else
      totalInventory <- get product "totalInventory" ;;
      let qty := coalesce totalInventory (num 0) in
      ret {| status := 200;
             sent := object [("productId", productId);
                             ("quantity", qty);
                             ("available", Some (JBool (gt qty (num 0))))] |}.

(** [app.get("/api/stock", ...)] *)
Definition get_stock (req : request) : M response :=
  try_catch (stock_body req)
    (fun err =>
       console_error [LValue (str "GET /api/stock error"); LError err] ;;;
       ret internal_error).

Definition orderInput (quantity email note variantId : value) : json :=
  object [("email", or_else email (str "no-email@example.com"));
          ("lineItems", Some (JArr [object [("quantity", quantity);
                                            ("variantId", variantId)]]));
          ("tags", Some (JArr [JStr "WeChat Mini Program"]));
          ("note", or_else note (str "Order from WeChat Mini Program"));
          ("financialStatus", str "PAID")].

(** Steps 2.1 and 2.2 of the handler: what follows its validation. *)
Definition resolve_and_order (productId quantity email note : value) : M response :=
    varData <- shopifyAdminGraphQL src e up variantQuery (Some (object [("id", productId)])) ;;
    product <- get varData "product" ;;
    no_variant <-
      (if negb (truthy product) then ret true
       else
         variants <- get product "variants" ;;
         edges <- get variants "edges" ;;
         len <- get edges "length" ;;
         ret (negb (truthy len))) ;;
    if (no_variant : bool) then
      ret {| status := 404; sent := object [("error", str "Product or variant not found")] |}
    else
      variants <- get product "variants" ;;
      edges <- get variants "edges" ;;
      edge <- index0 edges ;;
      node <- get edge "node" ;;
      variantId <- get node "id" ;;
      orderData <- shopifyAdminGraphQL src e up (orderMutation src)
                     (Some (object [(mutation_variable src,
                                     Some (orderInput quantity email note variantId))])) ;;
      result <- get orderData "orderCreate" ;;
      userErrors <- get result "userErrors" ;;
      has_errors <-
        (if negb (truthy userErrors) then ret false
         else
           len <- get userErrors "length" ;;
           ret (truthy len)) ;;
      if (has_errors : bool) then
        console_error [LValue (str "orderCreate userErrors"); LValue userErrors] ;;;
        ret {| status := 400;
               sent := object [("error", str "Shopify order error");
                               ("details", userErrors)] |}
      else
        order <- get result "order" ;;
        ret {| status := 200;
               sent := object [("success", Some (JBool true)); ("order", order)] |}.

Definition create_order_body (req : request) : M response :=
  let b := or_else (req_body req) (Some (JObj [])) in
  productId <- get b "productId" ;;
  quantity <- get b "quantity" ;;
  email <- get b "email" ;;
  note <- get b "note" ;;
  if negb (truthy productId) || negb (truthy quantity) then
    ret {| status := 400; sent := object [("error", str "Missing productId or quantity")] |}
  else
    resolve_and_order productId quantity email note.

(** [app.post("/api/create-order", ...)] *)
Definition create_order (req : request) : M response :=
  try_catch (create_order_body req)
    (fun err =>
       console_error [LValue (str "POST /api/create-order error"); LError err] ;;;
       ret internal_error).

End Handlers.

(** ** Vocabulary of the statements *)

(** What the destructuring [const { ..., k, ... } = req.body || {}]
    binds to [k]. *)
Definition body_field (req : request) (k : string) : value :=
  match prop (or_else (req_body req) (Some (JObj []))) k with
  | Ret v => v
  | Throw _ => None
  end.

(** The upstream answers [rq], sent after [earlier], with a 2xx
    response whose body has no [errors] and carries the object [data]. *)
Definition answers_data (up : upstream) (earlier : list fetch_request)
    (rq : fetch_request) (data : list (string * json)) : Prop :=
  exists st top,
    up earlier rq = HttpResponse st (Some (JObj top)) /\
    ok st = true /\
    truthy (assoc "errors" top) = false /\
    assoc "data" top = Some (JObj data).

(** [data.product] has a first variant edge whose node carries
    [variantId]. *)
Definition first_variant (data : list (string * json)) (variantId : value) : Prop :=
  exists product variants edge others node,
    assoc "product" data = Some (JObj product) /\
    assoc "variants" product = Some (JObj variants) /\
    assoc "edges" variants = Some (JArr (JObj edge :: others)) /\
    assoc "node" edge = Some (JObj node) /\
    assoc "id" node = variantId.

(** [data] reports no product, or one whose list of variant edges is
    empty. *)
Definition no_variant (data : list (string * json)) : Prop :=
  truthy (assoc "product" data) = false \/
  exists product variants,
    assoc "product" data = Some (JObj product) /\
    assoc "variants" product = Some (JObj variants) /\
    assoc "edges" variants = Some (JArr []).

Definition stock_request_to (src : source) (e : process_env) (productId : value) : fetch_request :=
  graphql_request src e stockQuery (Some (object [("id", productId)])).

Definition variant_request_to (src : source) (e : process_env) (productId : value) : fetch_request :=
  graphql_request src e variantQuery (Some (object [("id", productId)])).

Definition order_request_to (src : source) (e : process_env) (input : json) : fetch_request :=
  graphql_request src e (orderMutation src)
    (Some (object [(mutation_variable src, Some input)])).

(** A quantity usable as a line-item count: a positive integer. *)
Definition positive_count (quantity : value) : bool :=
  match quantity with
  | Some (JNum n) => 0 <? n
  | _ => false
  end.

Definition missing_fields : response :=
  {| status := 400; sent := object [("error", str "Missing productId or quantity")] |}.

(** A computation that sends nothing upstream. *)
Definition quiet {A} (m : M A) : Prop :=
  forall w, calls (snd (m w)) = calls w.

(** A computation that, at most, adds to the record of calls. *)
Definition grows {A} (m : M A) : Prop :=
  forall w, exists more, calls (snd (m w)) = (calls w ++ more)%list.

(** The pairs of requests that the two sources send in each other's
    place: the same request, or two requests to the same URL with the
    same headers whose bodies are the two mutations, each carrying the
    same order under its own variable name. *)
Definition naming (a b : fetch_request) : Prop :=
  a = b \/
  (url a = url b /\ method a = method b /\ headers a = headers b /\
   exists input,
     body a = JObj [("query", JStr (orderMutation server_js));
                    ("variables", JObj [("order", input)])] /\
     body b = JObj [("query", JStr (orderMutation part_000));
                    ("variables", JObj [("input", input)])]).

(** Two worlds whose records of calls pair up under [R]. *)
Definition alike (R : fetch_request -> fetch_request -> Prop) (w1 w2 : world) : Prop :=
  Forall2 R (calls w1) (calls w2).

(** An upstream that answers alike to requests paired by [R], sent
    after requests paired by [R]. *)
Definition respects (R : fetch_request -> fetch_request -> Prop) (up : upstream) : Prop :=
  forall l1 l2 r1 r2, Forall2 R l1 l2 -> R r1 r2 -> up l1 r1 = up l2 r2.

(** Two computations that, from worlds alike, end in worlds alike,
    both returning the same value or both throwing. *)
Definition sim {A} (R : fetch_request -> fetch_request -> Prop) (m1 m2 : M A) : Prop :=
  forall w1 w2, alike R w1 w2 ->
    alike R (snd (m1 w1)) (snd (m2 w2)) /\
    match fst (m1 w1), fst (m2 w2) with
    | Ret a, Ret b => a = b
    | Throw _, Throw _ => True
    | _, _ => False
    end.

(** A computation all of whose returned values satisfy [P]. *)
Definition yields {A} (P : A -> Prop) (m : M A) : Prop :=
  forall w, match fst (m w) with
            | Ret a => P a
            | Throw _ => True
            end.

(** A computation that adds at most [n] calls to the record, each of
    them satisfying [P]. *)
Definition sends {A} (P : fetch_request -> Prop) (n : nat) (m : M A) : Prop :=
  forall w, exists more,
    calls (snd (m w)) = (calls w ++ more)%list /\
    Forall P more /\
    (List.length more <= n)%nat.

(** A request as [shopifyAdminGraphQL] sends it: a POST to the one
    GraphQL endpoint, carrying a token that is truthy. *)
Definition bridge_call (src : source) (e : process_env) (rq : fetch_request) : Prop :=
  truthy (ADMIN_TOKEN src e) = true /\
  url rq = graphql_url e /\
  method rq = "POST" /\
  headers rq = [("Content-Type", str "application/json");
                ("X-Shopify-Access-Token", ADMIN_TOKEN src e)].

(** The responses of [GET /api/stock]. *)
Definition stock_answer (productId : value) (r : response) : Prop :=
  r = {| status := 400; sent := JObj [("error", JStr "Missing productId")] |} \/
  r = {| status := 404; sent := JObj [("error", JStr "Product not found")] |} \/
  r = {| status := 500; sent := JObj [("error", JStr "Internal error")] |} \/
  exists quantity available,
    r = {| status := 200;
           sent := object [("productId", productId);
                           ("quantity", quantity);
                           ("available", Some (JBool available))] |}.

(** The responses of [POST /api/create-order]. *)
Definition order_answer (r : response) : Prop :=
  r = {| status := 400; sent := JObj [("error", JStr "Missing productId or quantity")] |} \/
  r = {| status := 404; sent := JObj [("error", JStr "Product or variant not found")] |} \/
  r = {| status := 500; sent := JObj [("error", JStr "Internal error")] |} \/
  (exists details,
     r = {| status := 400;
            sent := object [("error", str "Shopify order error"); ("details", details)] |}) \/
  exists order,
    r = {| status := 200;
           sent := object [("success", Some (JBool true)); ("order", order)] |}.

(** The message of the first entry of a GraphQL [errors] array:
    [errors[0]?.message]. *)
Definition first_message (errors : list json) : value :=
  match errors with
  | JObj first :: _ => assoc "message" first
  | _ => None
  end.

(** ** Concrete runs *)

Module Run.

(** The runs below compare numbers only; this engine reads every
    string, array and object as NaN. *)
Definition engine : json -> option Z := fun _ => None.

Definition env : process_env := {|
  env_SHOPIFY_DOMAIN := None;
  env_SHOPIFY_ADMIN_TOKEN := Some "shpat_0123";
  env_PORT := None
|}.

Definition env_without_token : process_env := {|
  env_SHOPIFY_DOMAIN := None;
  env_SHOPIFY_ADMIN_TOKEN := None;
  env_PORT := None
|}.

Definition product_id : string := "gid://shopify/Product/1".

Definition stock_req : request :=
  {| query := [("productId", JStr product_id)]; req_body := None |}.

Definition order_req (extra : list (string * json)) : request :=
  {| query := [];
     req_body := Some (JObj (("productId", JStr product_id) :: extra)) |}.

Definition graphql (data : list (string * json)) : fetch_result :=
  HttpResponse 200 (Some (JObj [("data", JObj data)])).

Definition stock_product (n : Z) : list (string * json) :=
  [("id", JStr product_id); ("totalInventory", JNum n)].

Definition stock_data (n : Z) : list (string * json) :=
  [("product", JObj (stock_product n))].

Definition inventory (n : Z) : fetch_result := graphql (stock_data n).

Definition variant_data (edges : list json) : list (string * json) :=
  [("product", JObj [("id", JStr product_id);
                     ("title", JStr "Deck");
                     ("variants", JObj [("edges", JArr edges)])])].

Definition variants (edges : list json) : fetch_result := graphql (variant_data edges).

Definition variant_id : string := "gid://shopify/ProductVariant/7".

Definition one_edge : list json := [JObj [("node", JObj [("id", JStr variant_id)])]].

Definition one_variant : fetch_result := variants one_edge.

Definition created_order : json :=
  JObj [("id", JStr "gid://shopify/Order/9");
        ("name", JStr "#1001");
        ("email", JStr "no-email@example.com");
        ("totalPriceSet",
         JObj [("shopMoney", JObj [("amount", JStr "12.00"); ("currencyCode", JStr "USD")])])].

Definition order_created : fetch_result :=
  graphql [("orderCreate", JObj [("order", created_order); ("userErrors", JArr [])])].

Definition user_errors : list json :=
  [JObj [("field", JArr [JStr "order"; JStr "lineItems"; JStr "0"; JStr "quantity"]);
         ("message", JStr "Quantity must be greater than 0")]].

Definition refusal : list (string * json) :=
  [("order", JNull); ("userErrors", JArr user_errors)].

Definition refused_data : list (string * json) := [("orderCreate", JObj refusal)].

Definition order_refused : fetch_result := graphql refused_data.

Definition created : list (string * json) :=
  [("order", created_order); ("userErrors", JArr [])].

Definition created_data : list (string * json) := [("orderCreate", JObj created)].

Definition unauthorized_body : json :=
  JObj [("errors", JStr "[API] Invalid API key or access token")].

Definition unauthorized : fetch_result := HttpResponse 401 (Some unauthorized_body).

Definition throttled_errors : list json :=
  [JObj [("message", JStr "Throttled");
         ("extensions", JObj [("code", JStr "THROTTLED")])]].

Definition throttled : fetch_result :=
  HttpResponse 200 (Some (JObj [("errors", JArr throttled_errors)])).

(** A platform on which the numeric ports of the valid range are free
    and nothing else can be listened on. *)
Definition listen (port : value) : option exn :=
  match port with
  | Some (JNum n) =>
      if (0 <=? n) && (n <=? 65535) then None
      else Some (Error (str "ERR_SOCKET_BAD_PORT"))
  | _ => Some (Error (str "EADDRINUSE"))
  end.

Definition unknown_argument : fetch_result :=
  HttpResponse 200
    (Some (JObj [("errors",
                  JArr [JObj [("message",
                               JStr "Field 'orderCreate' is missing required arguments: order")]])])).

(** The variables a request carries. *)
Definition variables_of (rq : fetch_request) : value :=
  match body rq with
  | JObj props => assoc "variables" props
  | _ => None
  end.

(** An upstream that reads what it is sent: it resolves the variant,
    then creates the order when the mutation passes it as [order] and
    reports a GraphQL error when it does not. *)
Definition versioned : upstream :=
  fun earlier rq =>
    match earlier with
    | [] => one_variant
    | _ =>
        match variables_of rq with
        | Some (JObj vars) =>
            match assoc "order" vars with
            | Some _ => order_created
            | None => unknown_argument
            end
        | _ => unknown_argument
        end
    end.

(** The order a mutation request carries, under either name. *)
Definition order_of (rq : fetch_request) : value :=
  match variables_of rq with
  | Some (JObj vars) =>
      match assoc "order" vars with
      | Some input => Some input
      | None => assoc "input" vars
      end
  | _ => None
  end.

(** An upstream that reads what it is sent too, and takes the order
    under either name. *)
Definition lenient : upstream :=
  fun earlier rq =>
    match earlier with
    | [] => one_variant
    | _ =>
        match order_of rq with
        | Some _ => order_created
        | None => unknown_argument
        end
    end.

End Run.

(** ** Basic facts *)

Lemma truthy_or_else (a b : value) :
  truthy b = true -> truthy (or_else a b) = true.
Proof.
  intros Hb. unfold or_else. destruct (truthy a) eqn:Ha; assumption.
Qed.

Lemma prop_truthy (v : value) (k : string) :
  truthy v = true -> exists x, prop v k = Ret x.
Proof.
  destruct v as [[| b | n | s | items | props] |]; simpl; intros H;
    try discriminate; eauto.
Qed.

(** The monad's equations, for running a handler step by step. *)
Lemma bind_ret {A B} (a : A) (k : A -> M B) w : bind (ret a) k w = k a w.
Proof. reflexivity. Qed.

Lemma bind_bind {A B C} (m : M A) (f : A -> M B) (g : B -> M C) w :
  bind (bind m f) g w = bind m (fun a => bind (f a) g) w.
Proof. unfold bind. destruct (m w) as [[a | x] w']; reflexivity. Qed.

Lemma bind_eq {A B} (m : M A) (k : A -> M B) w a w' :
  m w = (Ret a, w') -> bind m k w = k a w'.
Proof. intros H. unfold bind. rewrite H. reflexivity. Qed.

Lemma get_object props k : get (Some (JObj props)) k = ret (assoc k props).
Proof. reflexivity. Qed.

Lemma get_array_length items :
  get (Some (JArr items)) "length" = ret (num (Z.of_nat (List.length items))).
Proof. reflexivity. Qed.

Lemma index0_array item items : index0 (Some (JArr (item :: items))) = ret (Some item).
Proof. reflexivity. Qed.

Ltac step :=
  repeat rewrite bind_bind;
  repeat first [rewrite get_object | rewrite get_array_length | rewrite index0_array];
  rewrite bind_ret; cbv beta.

(** Runs a handler as far as the facts rewritten by [known] decide it. *)
Ltac run known :=
  repeat first
    [ step
    | progress known
    | progress cbn [truthy negb List.length Z.of_nat Pos.of_succ_nat num] ].

(** The destructuring of the body never throws. *)
Lemma get_body_field (req : request) (k : string) (w : world) :
  get (or_else (req_body req) (Some (JObj []))) k w = (Ret (body_field req k), w).
Proof.
  unfold get, lift, body_field.
  destruct (prop_truthy (or_else (req_body req) (Some (JObj []))) k) as [x Hx].
  - apply truthy_or_else. reflexivity.
  - rewrite Hx. reflexivity.
Qed.

Lemma graphql_without_token src e up q vars w :
  truthy (ADMIN_TOKEN src e) = false ->
  shopifyAdminGraphQL src e up q vars w = (Throw (Error (str (missing_token src))), w).
Proof.
  intros H. unfold shopifyAdminGraphQL. rewrite H. reflexivity.
Qed.

Lemma graphql_returns src e up q vars w data :
  truthy (ADMIN_TOKEN src e) = true ->
  answers_data up (calls w) (graphql_request src e q vars) data ->
  shopifyAdminGraphQL src e up q vars w =
    (Ret (Some (JObj data)),
     {| calls := calls w ++ [graphql_request src e q vars]; console := console w |}).
Proof.
  intros Htok (st & top & Hup & Hok & Herr & Hdata).
  unfold shopifyAdminGraphQL. rewrite Htok. simpl.
  unfold bind, fetch. rewrite Hup. simpl. rewrite Hok. simpl.
  unfold get, lift. simpl. rewrite Herr. simpl. rewrite Hdata. reflexivity.
Qed.

(** [create_order_body], once the body is destructured. *)
Lemma create_order_body_eq src e up req w :
  create_order_body src e up req w =
    if negb (truthy (body_field req "productId")) || negb (truthy (body_field req "quantity"))
    then (Ret missing_fields, w)
    else resolve_and_order src e up
           (body_field req "productId") (body_field req "quantity")
           (body_field req "email") (body_field req "note") w.
Proof.
  unfold create_order_body, bind.
  rewrite !get_body_field.
  destruct (negb (truthy (body_field req "productId")) ||
            negb (truthy (body_field req "quantity"))); reflexivity.
Qed.

Lemma create_order_rejects src e up req w :
  truthy (body_field req "productId") = false \/ truthy (body_field req "quantity") = false ->
  create_order src e up req w = (Ret missing_fields, w).
Proof.
  intros H. unfold create_order, try_catch. rewrite create_order_body_eq.
  destruct H as [H | H]; rewrite H; simpl; [| rewrite orb_true_r]; reflexivity.
Qed.

(** ** The claims *)

(** C4.  A create-order request whose body lacks [productId] or lacks
    [quantity] is answered 400 with the short message
    "Missing productId or quantity"; no upstream call is made (the
    record of calls, and the console, are as they were). *)
Theorem create_order_missing_field src e up req :
  body_field req "productId" = undefined \/ body_field req "quantity" = undefined ->
  create_order src e up req start =
    (Ret {| status := 400;
            sent := JObj [("error", JStr "Missing productId or quantity")] |},
     start)
  /\ calls (snd (create_order src e up req start)) = [].
Proof.
  intros H.
  assert (Hrun : create_order src e up req start = (Ret missing_fields, start)).
  { apply create_order_rejects. destruct H as [H | H]; rewrite H; auto. }
  rewrite Hrun. split; reflexivity.
Qed.

(** C10.  A zero quantity is taken for an absent one: whenever
    [quantity] is falsy ([0], the empty string, [false] or [null]),
    with [productId] present or not, the answer is the 400
    "Missing productId or quantity" and no upstream call is made. *)
Theorem create_order_zero_quantity src e up req :
  truthy (body_field req "quantity") = false ->
  create_order src e up req start =
    (Ret {| status := 400;
            sent := JObj [("error", JStr "Missing productId or quantity")] |},
     start)
  /\ calls (snd (create_order src e up req start)) = [].
Proof.
  intros H.
  assert (Hrun : create_order src e up req start = (Ret missing_fields, start)).
  { apply create_order_rejects. auto. }
  rewrite Hrun. split; reflexivity.
Qed.

(** C2.  When the variant query reports no product, or a product whose
    list of variant edges is empty, create-order answers 404 with the
    not-found body, and the variant query is the one upstream call
    made: the mutation is never sent. *)
Theorem create_order_no_variant src e up req data :
  truthy (body_field req "productId") = true ->
  truthy (body_field req "quantity") = true ->
  truthy (ADMIN_TOKEN src e) = true ->
  answers_data up [] (variant_request_to src e (body_field req "productId")) data ->
  no_variant data ->
  create_order src e up req start =
    (Ret {| status := 404;
            sent := JObj [("error", JStr "Product or variant not found")] |},
     {| calls := [variant_request_to src e (body_field req "productId")];
        console := [] |}).
Proof.
  intros Hpid Hqty Htok Hup Hnone.
  unfold create_order, try_catch. rewrite create_order_body_eq, Hpid, Hqty. simpl.
  unfold resolve_and_order, bind.
  rewrite (graphql_returns src e up _ _ start data Htok Hup). simpl.
  destruct Hnone as [Hnone | (product & variants & Hp & Hv & He)].
  - rewrite Hnone. reflexivity.
  - rewrite Hp. simpl. rewrite Hv. simpl. rewrite He. reflexivity.
Qed.

(** *** Steps that reach no upstream *)

Lemma quiet_ret {A} (a : A) : quiet (ret a).
Proof. intros w. reflexivity. Qed.

Lemma quiet_throw {A} (x : exn) : quiet (@throw A x).
Proof. intros w. reflexivity. Qed.

Lemma quiet_lift {A} (o : outcome A) : quiet (lift o).
Proof. intros w. reflexivity. Qed.

Lemma quiet_console args : quiet (console_error args).
Proof. intros w. reflexivity. Qed.

Lemma quiet_bind {A B} (m : M A) (k : A -> M B) :
  quiet m -> (forall a, quiet (k a)) -> quiet (bind m k).
Proof.
  intros Hm Hk w. unfold bind. specialize (Hm w).
  destruct (m w) as [[a | x] w']; simpl in *.
  - rewrite Hk. assumption.
  - assumption.
Qed.

Lemma calls_bind {A B} (m : M A) (k : A -> M B) w :
  (forall a, quiet (k a)) -> calls (snd (bind m k w)) = calls (snd (m w)).
Proof.
  intros Hk. unfold bind. destruct (m w) as [[a | x] w']; simpl.
  - apply Hk.
  - reflexivity.
Qed.

Lemma calls_try_catch {A} (body : M A) (handler : exn -> M A) w :
  (forall x, quiet (handler x)) ->
  calls (snd (try_catch body handler w)) = calls (snd (body w)).
Proof.
  intros Hh. unfold try_catch. destruct (body w) as [[a | x] w']; simpl.
  - reflexivity.
  - apply Hh.
Qed.

Lemma quiet_res_json payload : quiet (res_json payload).
Proof. destruct payload; [apply quiet_ret | apply quiet_throw]. Qed.

Lemma quiet_get_opt v k : quiet (get_opt v k).
Proof.
  destruct v as [[| b | n | s | items | props] |]; simpl;
    first [apply quiet_ret | apply quiet_lift].
Qed.

Ltac quiet :=
  unfold get, index0;
  repeat first
    [ apply quiet_ret | apply quiet_throw | apply quiet_lift | apply quiet_console
    | apply quiet_res_json | apply quiet_get_opt
    | apply quiet_bind; [| intros ?]
    | match goal with
      | |- quiet (if ?b then _ else _) => destruct b
      end ].

(** With a token, one upstream call is one [fetch], whatever comes back. *)
Lemma graphql_calls_once src e up q vars w :
  truthy (ADMIN_TOKEN src e) = true ->
  calls (snd (shopifyAdminGraphQL src e up q vars w)) =
    (calls w ++ [graphql_request src e q vars])%list.
Proof.
  intros Htok. unfold shopifyAdminGraphQL. rewrite Htok. simpl.
  rewrite calls_bind.
  - unfold fetch. destruct (up (calls w) _); reflexivity.
  - intros res. quiet.
Qed.

(** With a token, a request that passes validation and whose product
    has a first variant is followed by the mutation. *)
Lemma create_order_calls src e up req data variantId :
  truthy (body_field req "productId") = true ->
  truthy (body_field req "quantity") = true ->
  truthy (ADMIN_TOKEN src e) = true ->
  answers_data up [] (variant_request_to src e (body_field req "productId")) data ->
  first_variant data variantId ->
  calls (snd (create_order src e up req start)) =
    [variant_request_to src e (body_field req "productId");
     order_request_to src e
       (orderInput (body_field req "quantity") (body_field req "email")
                   (body_field req "note") variantId)].
Proof.
  intros Hpid Hqty Htok Hup (product & variants & edge & others & node & Hp & Hv & He & Hn & Hid).
  unfold create_order. rewrite calls_try_catch by (intros x; quiet).
  rewrite create_order_body_eq, Hpid, Hqty. simpl.
  unfold resolve_and_order.
  rewrite (bind_eq _ _ _ _ _ (graphql_returns src e up _ _ start data Htok Hup)).
  run ltac:(rewrite ?Hp, ?Hv, ?He, ?Hn, ?Hid).
  rewrite calls_bind.
  - rewrite graphql_calls_once by assumption. reflexivity.
  - intros orderData. quiet.
Qed.

(** C3.  When the mutation comes back with a non-empty [userErrors]
    list, create-order answers 400 with that very list under [details]
    (and logs it); the success body is not sent. *)
Theorem create_order_user_errors src e up req data variantId reply result error errors :
  truthy (body_field req "productId") = true ->
  truthy (body_field req "quantity") = true ->
  truthy (ADMIN_TOKEN src e) = true ->
  answers_data up [] (variant_request_to src e (body_field req "productId")) data ->
  first_variant data variantId ->
  answers_data up [variant_request_to src e (body_field req "productId")]
    (order_request_to src e
       (orderInput (body_field req "quantity") (body_field req "email")
                   (body_field req "note") variantId)) reply ->
  assoc "orderCreate" reply = Some (JObj result) ->
  assoc "userErrors" result = Some (JArr (error :: errors)) ->
  create_order src e up req start =
    (Ret {| status := 400;
            sent := JObj [("error", JStr "Shopify order error");
                          ("details", JArr (error :: errors))] |},
     {| calls := [variant_request_to src e (body_field req "productId");
                  order_request_to src e
                    (orderInput (body_field req "quantity") (body_field req "email")
                                (body_field req "note") variantId)];
        console := [[LValue (str "orderCreate userErrors");
                     LValue (Some (JArr (error :: errors)))]] |}).
Proof.
  intros Hpid Hqty Htok Hup (product & variants & edge & others & node & Hp & Hv & He & Hn & Hid)
         Hup2 Hres Herrs.
  unfold create_order, try_catch.
  rewrite create_order_body_eq, Hpid, Hqty. simpl negb. simpl orb. cbv iota.
  unfold resolve_and_order.
  rewrite (bind_eq _ _ _ _ _ (graphql_returns src e up _ _ start data Htok Hup)).
  run ltac:(rewrite ?Hp, ?Hv, ?He, ?Hn, ?Hid).
  erewrite bind_eq by (apply graphql_returns; [exact Htok | exact Hup2]).
  run ltac:(rewrite ?Hres, ?Herrs).
  reflexivity.
Qed.

(** *** What [orderInput] carries *)

Lemma truthy_defined (v : value) : truthy v = true -> exists j, v = Some j.
Proof. destruct v as [j |]; [eauto | discriminate]. Qed.

Lemma orderInput_fields quantity email note variantId :
  exists line_items,
    orderInput quantity email note variantId =
      JObj [("email",
             match or_else email (str "no-email@example.com") with
             | Some j => j
             | None => JNull
             end);
            ("lineItems", line_items);
            ("tags", JArr [JStr "WeChat Mini Program"]);
            ("note",
             match or_else note (str "Order from WeChat Mini Program") with
             | Some j => j
             | None => JNull
             end);
            ("financialStatus", JStr "PAID")].
Proof.
  unfold orderInput, object.
  destruct (truthy_defined (or_else email (str "no-email@example.com"))) as [m Hm].
  { apply truthy_or_else. reflexivity. }
  destruct (truthy_defined (or_else note (str "Order from WeChat Mini Program"))) as [n Hn].
  { apply truthy_or_else. reflexivity. }
  rewrite Hm, Hn. eexists. reflexivity.
Qed.

(** C7, as the code has it.  Once validation and variant resolution
    have passed, the second upstream call is the mutation, and the
    order it carries has: [email] equal to the request's when that is
    truthy and "no-email@example.com" when it is absent or falsy (the
    empty string, [null]); [note] likewise with
    "Order from WeChat Mini Program"; [financialStatus] "PAID",
    whatever the request holds. *)
Theorem order_payload_defaults src e up req data variantId :
  truthy (body_field req "productId") = true ->
  truthy (body_field req "quantity") = true ->
  truthy (ADMIN_TOKEN src e) = true ->
  answers_data up [] (variant_request_to src e (body_field req "productId")) data ->
  first_variant data variantId ->
  exists order,
    nth_error (calls (snd (create_order src e up req start))) 1 =
      Some (order_request_to src e (JObj order)) /\
    (truthy (body_field req "email") = true ->
       assoc "email" order = body_field req "email") /\
    (truthy (body_field req "email") = false ->
       assoc "email" order = str "no-email@example.com") /\
    (truthy (body_field req "note") = true ->
       assoc "note" order = body_field req "note") /\
    (truthy (body_field req "note") = false ->
       assoc "note" order = str "Order from WeChat Mini Program") /\
    assoc "financialStatus" order = str "PAID".
Proof.
  intros Hpid Hqty Htok Hup Hvar.
  rewrite (create_order_calls src e up req data variantId) by assumption.
  destruct (orderInput_fields (body_field req "quantity") (body_field req "email")
              (body_field req "note") variantId) as [items Heq].
  rewrite Heq. eexists. split; [reflexivity |].
  unfold or_else. cbn [assoc String.eqb Ascii.eqb Bool.eqb].
  repeat split; intros H; rewrite H; try reflexivity.
  - destruct (truthy_defined _ H) as [j Hj]. rewrite Hj. reflexivity.
  - destruct (truthy_defined _ H) as [j Hj]. rewrite Hj. reflexivity.
Qed.

(** *** The record of calls only grows *)

Lemma quiet_grows {A} (m : M A) : quiet m -> grows m.
Proof. intros H w. exists []. rewrite H, app_nil_r. reflexivity. Qed.

Lemma grows_bind {A B} (m : M A) (k : A -> M B) :
  grows m -> (forall a, grows (k a)) -> grows (bind m k).
Proof.
  intros Hm Hk w. unfold bind. destruct (Hm w) as [more Hmore].
  destruct (m w) as [[a | x] w']; simpl in *.
  - destruct (Hk a w') as [more' Hmore']. exists (more ++ more')%list.
    rewrite Hmore', Hmore, app_assoc. reflexivity.
  - exists more. assumption.
Qed.

Lemma calls_bind_grows {A B} (m : M A) (k : A -> M B) w :
  (forall a, grows (k a)) ->
  exists more, calls (snd (bind m k w)) = (calls (snd (m w)) ++ more)%list.
Proof.
  intros Hk. unfold bind. destruct (m w) as [[a | x] w']; simpl.
  - apply Hk.
  - exists []. rewrite app_nil_r. reflexivity.
Qed.

Lemma grows_graphql src e up q vars : grows (shopifyAdminGraphQL src e up q vars).
Proof.
  intros w. destruct (truthy (ADMIN_TOKEN src e)) eqn:Htok.
  - exists [graphql_request src e q vars]. apply graphql_calls_once. assumption.
  - rewrite graphql_without_token by assumption. exists []. simpl.
    rewrite app_nil_r. reflexivity.
Qed.

Ltac grows :=
  repeat first
    [ apply grows_graphql
    | apply grows_bind; [| intros ?]
    | match goal with
      | |- grows (if ?b then _ else _) => destruct b
      end
    | apply quiet_grows; quiet ].

(** C5, as the code has it.  The check on [quantity] is its
    truthiness.  A quantity that is present but falsy ([0], the empty
    string, [false], [null]) is a client input error: 400, and the
    upstream is never contacted.  A truthy quantity passes, whether or
    not it is a positive count: with a productId and a token, the
    variant query goes out. *)
Theorem create_order_quantity_check src e up req :
  truthy (body_field req "productId") = true ->
  truthy (ADMIN_TOKEN src e) = true ->
  if truthy (body_field req "quantity")
  then exists more,
         calls (snd (create_order src e up req start)) =
           variant_request_to src e (body_field req "productId") :: more
  else create_order src e up req start = (Ret missing_fields, start).
Proof.
  intros Hpid Htok. destruct (truthy (body_field req "quantity")) eqn:Hqty.
  - unfold create_order. rewrite calls_try_catch by (intros x; quiet).
    rewrite create_order_body_eq, Hpid, Hqty. simpl negb. simpl orb. cbv iota.
    unfold resolve_and_order.
    match goal with
    | |- context [calls (snd (bind ?m ?k start))] =>
        destruct (calls_bind_grows m k start ltac:(intros a; grows)) as [more Hmore]
    end.
    rewrite Hmore, graphql_calls_once by assumption. exists more. reflexivity.
  - apply create_order_rejects. auto.
Qed.

(** *** The stock handler *)

Lemma coalesce_defined (a : value) (d : json) : exists j, coalesce a (Some d) = Some j.
Proof. destruct a as [[| b | n | s | items | props] |]; simpl; eauto. Qed.

Lemma gt_zero_number engine (n : Z) :
  gt engine (num n) (num 0) = true <-> 0 < n.
Proof. unfold gt. simpl. apply Z.ltb_lt. Qed.

Lemma bind_Ret_inv {A B} (m : M A) (k : A -> M B) w b w2 :
  bind m k w = (Ret b, w2) ->
  exists a w1, m w = (Ret a, w1) /\ k a w1 = (Ret b, w2).
Proof.
  unfold bind. destruct (m w) as [[a | x] w1]; intros H.
  - eauto.
  - discriminate.
Qed.

Lemma lift_Ret_inv {A} (o : outcome A) w a w1 :
  lift o w = (Ret a, w1) -> o = Ret a /\ w1 = w.
Proof. unfold lift. intros H. inversion H. auto. Qed.

(** What a returning upstream call has seen. *)
Lemma graphql_Ret_inv src e up q vars w data w1 :
  shopifyAdminGraphQL src e up q vars w = (Ret data, w1) ->
  exists st top,
    up (calls w) (graphql_request src e q vars) = HttpResponse st (Some top) /\
    ok st = true /\
    prop (Some top) "data" = Ret data /\
    calls w1 = (calls w ++ [graphql_request src e q vars])%list.
Proof.
  unfold shopifyAdminGraphQL.
  destruct (truthy (ADMIN_TOKEN src e)); simpl negb; cbv iota; [| discriminate].
  intros H.
  apply bind_Ret_inv in H as ([st payload] & w2 & Hfetch & H).
  apply bind_Ret_inv in H as (body & w3 & Hjson & H).
  cbn [fst snd] in *.
  unfold fetch in Hfetch.
  destruct (up (calls w) _) as [reason | st' payload'] eqn:Hup; [discriminate |].
  inversion Hfetch; subst; clear Hfetch.
  destruct payload as [top |]; [| discriminate].
  inversion Hjson; subst; clear Hjson.
  destruct (ok st) eqn:Hok; simpl negb in H; cbv iota in H.
  2: { apply bind_Ret_inv in H as (u & w4 & _ & H). discriminate. }
  apply bind_Ret_inv in H as (errors & w4 & Herrors & H).
  apply lift_Ret_inv in Herrors as [Herrors ->].
  destruct (truthy errors).
  { apply bind_Ret_inv in H as (u & w5 & _ & H).
    apply bind_Ret_inv in H as (first & w6 & _ & H).
    apply bind_Ret_inv in H as (message & w7 & _ & H). discriminate. }
  apply lift_Ret_inv in H as [H ->].
  exists st, top. repeat split; assumption || reflexivity.
Qed.

(** Every 200 of the stock handler comes from an upstream answer whose
    [data.product] is truthy, and reports that product's
    [totalInventory ?? 0]. *)
Lemma get_stock_success engine src e up req r w :
  get_stock engine src e up req start = (Ret r, w) ->
  status r = 200 ->
  exists st top data product inventory,
    truthy (assoc "productId" (query req)) = true /\
    up [] (stock_request_to src e (assoc "productId" (query req))) =
      HttpResponse st (Some top) /\
    prop (Some top) "data" = Ret data /\
    prop data "product" = Ret product /\
    truthy product = true /\
    prop product "totalInventory" = Ret inventory /\
    sent r =
      object [("productId", assoc "productId" (query req));
              ("quantity", coalesce inventory (num 0));
              ("available",
               Some (JBool (gt engine (coalesce inventory (num 0)) (num 0))))].
Proof.
  unfold get_stock, try_catch. intros H Hstatus.
  destruct (stock_body engine src e up req start) as [[r' | x] w'] eqn:Hbody.
  2: { cbv [bind console_error ret] in H. inversion H; subst. discriminate. }
  inversion H; subst; clear H.
  unfold stock_body in Hbody.
  destruct (truthy (assoc "productId" (query req))) eqn:Hpid;
    simpl negb in Hbody; cbv iota in Hbody.
  2: { inversion Hbody; subst. discriminate. }
  apply bind_Ret_inv in Hbody as (data & w1 & Hcall & Hbody).
  apply bind_Ret_inv in Hbody as (product & w2 & Hproduct & Hbody).
  apply lift_Ret_inv in Hproduct as [Hproduct ->].
  destruct (truthy product) eqn:Htruthy; simpl negb in Hbody; cbv iota in Hbody.
  2: { inversion Hbody; subst. discriminate. }
  apply bind_Ret_inv in Hbody as (inventory & w3 & Hinv & Hbody).
  apply lift_Ret_inv in Hinv as [Hinv ->].
  inversion Hbody; subst; clear Hbody.
  apply graphql_Ret_inv in Hcall as (st & top & Hup & _ & Hdata & _).
  exists st, top, data, product, inventory. cbn [sent]. auto 10.
Qed.

Lemma get_stock_found engine src e up req data product :
  truthy (assoc "productId" (query req)) = true ->
  truthy (ADMIN_TOKEN src e) = true ->
  answers_data up [] (stock_request_to src e (assoc "productId" (query req))) data ->
  assoc "product" data = Some (JObj product) ->
  get_stock engine src e up req start =
    (Ret {| status := 200;
            sent := object
                      [("productId", assoc "productId" (query req));
                       ("quantity", coalesce (assoc "totalInventory" product) (num 0));
                       ("available",
                        Some (JBool (gt engine
                                       (coalesce (assoc "totalInventory" product) (num 0))
                                       (num 0))))] |},
     {| calls := [stock_request_to src e (assoc "productId" (query req))];
        console := [] |}).
Proof.
  intros Hpid Htok Hup Hp.
  unfold get_stock, try_catch, stock_body. cbv zeta. rewrite Hpid. cbn [negb].
  rewrite (bind_eq _ _ _ _ _ (graphql_returns src e up _ _ start data Htok Hup)).
  run ltac:(rewrite ?Hp). reflexivity.
Qed.

(** The body of a 200, field by field. *)
Lemma stock_body_shape engine (productId inventory : value) :
  truthy productId = true ->
  exists pid quantity,
    productId = Some pid /\
    coalesce inventory (num 0) = Some quantity /\
    object [("productId", productId);
            ("quantity", coalesce inventory (num 0));
            ("available", Some (JBool (gt engine (coalesce inventory (num 0)) (num 0))))] =
      JObj [("productId", pid); ("quantity", quantity);
            ("available", JBool (gt engine (Some quantity) (num 0)))].
Proof.
  intros Hpid. destruct (truthy_defined _ Hpid) as [pid ->].
  destruct (coalesce_defined inventory (JNum 0)) as [quantity Hq].
  unfold num in *. rewrite Hq. exists pid, quantity. auto.
Qed.

(** C1.  A stock request with a productId for which the upstream
    returns a product object is answered 200 with [quantity] the
    product's [totalInventory] (0 when the field is missing or null)
    and [available] the value of [quantity > 0].  And in every 200 of
    the handler, [available] is [quantity > 0]: for a number, true
    exactly when it is positive. *)
Theorem get_stock_reports_inventory engine src e up req :
  (forall data product,
     truthy (assoc "productId" (query req)) = true ->
     truthy (ADMIN_TOKEN src e) = true ->
     answers_data up [] (stock_request_to src e (assoc "productId" (query req))) data ->
     assoc "product" data = Some (JObj product) ->
     fst (get_stock engine src e up req start) =
       Ret {| status := 200;
              sent := object
                        [("productId", assoc "productId" (query req));
                         ("quantity", coalesce (assoc "totalInventory" product) (num 0));
                         ("available",
                          Some (JBool (gt engine
                                         (coalesce (assoc "totalInventory" product) (num 0))
                                         (num 0))))] |}) /\
  (forall r,
     fst (get_stock engine src e up req start) = Ret r ->
     status r = 200 ->
     exists productId quantity available,
       sent r = JObj [("productId", productId); ("quantity", quantity);
                      ("available", JBool available)] /\
       available = gt engine (Some quantity) (num 0) /\
       (forall n, quantity = JNum n -> (available = true <-> 0 < n))).
Proof.
  split.
  - intros data product Hpid Htok Hup Hp.
    rewrite (get_stock_found engine src e up req data product) by assumption.
    reflexivity.
  - intros r Hr Hstatus.
    destruct (get_stock engine src e up req start) as [o w] eqn:Hrun.
    simpl in Hr. subst o.
    destruct (get_stock_success _ _ _ _ _ _ _ Hrun Hstatus)
      as (st & top & data & product & inventory & Hpid & _ & _ & _ & _ & _ & Hsent).
    destruct (stock_body_shape engine _ inventory Hpid) as (pid & quantity & _ & _ & Hshape).
    rewrite Hshape in Hsent.
    exists pid, quantity, (gt engine (Some quantity) (num 0)).
    repeat split; try assumption.
    + intros Hpos. subst quantity. apply (gt_zero_number engine n). assumption.
    + intros Hpos. subst quantity. apply (gt_zero_number engine n). assumption.
Qed.

(** C6, as the code has it.  Every 200 of the stock handler has the
    shape [{ productId, quantity, available }], where [quantity] is
    what the upstream reports as [totalInventory]: the same integer,
    negative or not, and 0 when the field is missing or null. *)
Theorem get_stock_quantity_verbatim engine src e up req r :
  fst (get_stock engine src e up req start) = Ret r ->
  status r = 200 ->
  exists st top data product inventory productId quantity available,
    up [] (stock_request_to src e (assoc "productId" (query req))) =
      HttpResponse st (Some top) /\
    prop (Some top) "data" = Ret data /\
    prop data "product" = Ret product /\
    prop product "totalInventory" = Ret inventory /\
    sent r = JObj [("productId", productId); ("quantity", quantity);
                   ("available", JBool available)] /\
    (forall n, inventory = num n -> quantity = JNum n) /\
    (inventory = undefined \/ inventory = Some JNull -> quantity = JNum 0).
Proof.
  intros Hr Hstatus.
  destruct (get_stock engine src e up req start) as [o w] eqn:Hrun.
  simpl in Hr. subst o.
  destruct (get_stock_success _ _ _ _ _ _ _ Hrun Hstatus)
    as (st & top & data & product & inventory & Hpid & Hup & Hdata & Hproduct & _ & Hinv & Hsent).
  destruct (stock_body_shape engine _ inventory Hpid) as (pid & quantity & _ & Hq & Hshape).
  rewrite Hshape in Hsent.
  exists st, top, data, product, inventory, pid, quantity, (gt engine (Some quantity) (num 0)).
  repeat split; try assumption.
  - intros n ->. unfold num in Hq. simpl in Hq. congruence.
  - intros [-> | ->]; unfold num, undefined in Hq; simpl in Hq; congruence.
Qed.

(** C8.  Without a token (unset or empty) the server starts all the
    same: whether start-up succeeds never depends on the token, and
    once the platform lets it listen on PORT the server is up, holding
    a falsy token.  Every request that then reaches the upstream call
    fails there, before any [fetch]: the caller gets the generic 500,
    and the missing token shows in the log only. *)
Theorem no_token_fails_per_request engine src listen e up :
  src = server_js \/ src = part_000 ->
  truthy (env_value (env_SHOPIFY_ADMIN_TOKEN e)) = false ->
  (forall t, started (main src listen (with_token t e)) = started (main src listen e)) /\
  (listen (PORT e) = None ->
   exists cfg banner,
     main src listen e = Listening cfg (PORT e) banner /\
     truthy (cfg_token cfg) = false) /\
  (forall req,
     truthy (assoc "productId" (query req)) = true ->
     get_stock engine src e up req start =
       (Ret {| status := 500; sent := JObj [("error", JStr "Internal error")] |},
        {| calls := [];
           console := [[LValue (str "GET /api/stock error");
                        LError (Error (str (missing_token src)))]] |})) /\
  (forall req,
     truthy (body_field req "productId") = true ->
     truthy (body_field req "quantity") = true ->
     create_order src e up req start =
       (Ret {| status := 500; sent := JObj [("error", JStr "Internal error")] |},
        {| calls := [];
           console := [[LValue (str "POST /api/create-order error");
                        LError (Error (str (missing_token src)))]] |})).
Proof.
  intros Hsrc Henv.
  assert (Htok : truthy (ADMIN_TOKEN src e) = false).
  { destruct Hsrc as [-> | ->]; simpl.
    - assumption.
    - unfold or_else. rewrite Henv. reflexivity. }
  split; [| split; [| split]].
  - intros t. unfold main. cbv zeta.
    change (PORT (with_token t e)) with (PORT e).
    destruct (listen (PORT e)); reflexivity.
  - intros Hlisten. unfold main. cbv zeta. rewrite Hlisten.
    eexists. eexists. split; [reflexivity | exact Htok].
  - intros req Hpid.
    unfold get_stock, try_catch, stock_body. cbv zeta. rewrite Hpid. cbn [negb].
    unfold bind at 1. rewrite graphql_without_token by assumption. reflexivity.
  - intros req Hpid Hqty.
    unfold create_order, try_catch. rewrite create_order_body_eq, Hpid, Hqty.
    simpl negb. simpl orb. cbv iota.
    unfold resolve_and_order. unfold bind at 1.
    rewrite graphql_without_token by assumption. reflexivity.
Qed.

(** *** The two sources, side by side *)

Lemma scripted_respects R script : respects R (scripted script).
Proof.
  intros l1 l2 r1 r2 H _. unfold scripted.
  rewrite (Forall2_length H). reflexivity.
Qed.

(** Every upstream answers the same request after the same requests
    in the same way. *)
Lemma respects_eq up : respects eq up.
Proof.
  intros l1 l2 r1 r2 H ->. assert (l1 = l2) as ->; [| reflexivity].
  induction H; [reflexivity | congruence].
Qed.

Lemma alike_eq w1 w2 : alike eq w1 w2 -> calls w1 = calls w2.
Proof. unfold alike. intros H. induction H; [reflexivity | congruence]. Qed.

Lemma sim_ret {A} R (a : A) : sim R (ret a) (ret a).
Proof. intros w1 w2 H. simpl. auto. Qed.

Lemma sim_throw {A} R (x y : exn) : sim R (@throw A x) (@throw A y).
Proof. intros w1 w2 H. simpl. auto. Qed.

Lemma sim_lift {A} R (o : outcome A) : sim R (lift o) (lift o).
Proof. intros w1 w2 H. simpl. destruct o; auto. Qed.

Lemma sim_console R args1 args2 : sim R (console_error args1) (console_error args2).
Proof. intros w1 w2 H. simpl. auto. Qed.

Lemma sim_bind {A B} R (m1 m2 : M A) (k1 k2 : A -> M B) :
  sim R m1 m2 -> (forall a, sim R (k1 a) (k2 a)) -> sim R (bind m1 k1) (bind m2 k2).
Proof.
  intros Hm Hk w1 w2 H. unfold bind. destruct (Hm w1 w2 H) as [Hw Ho].
  destruct (m1 w1) as [[a | x] w1'], (m2 w2) as [[b | y] w2']; simpl in *;
    try contradiction.
  - subst b. apply Hk. assumption.
  - auto.
Qed.

Lemma sim_res_json R payload : sim R (res_json payload) (res_json payload).
Proof. destruct payload; [apply sim_ret | apply sim_throw]. Qed.

Lemma sim_get_opt R v k : sim R (get_opt v k) (get_opt v k).
Proof.
  destruct v as [[| b | n | s | items | props] |]; simpl;
    first [apply sim_ret | apply sim_lift].
Qed.

Lemma sim_fetch R up rq1 rq2 :
  respects R up -> R rq1 rq2 -> sim R (fetch up rq1) (fetch up rq2).
Proof.
  intros Hup Hrq w1 w2 H. unfold fetch.
  rewrite (Hup (calls w1) (calls w2) rq1 rq2 H Hrq).
  assert (Hcalls : Forall2 R (calls w1 ++ [rq1]) (calls w2 ++ [rq2])).
  { apply Forall2_app; [exact H | constructor; [exact Hrq | constructor]]. }
  destruct (up (calls w2) rq2); simpl; auto.
Qed.

Ltac sim :=
  unfold get, index0;
  repeat first
    [ apply sim_ret | apply sim_throw | apply sim_lift | apply sim_console
    | apply sim_res_json | apply sim_get_opt
    | apply sim_bind; [| intros ?]
    | match goal with
      | |- sim _ (if ?b then _ else _) (if ?b then _ else _) => destruct b
      end ].

(** The token each source reads is truthy for the same environments,
    and then it is the same token. *)
Lemma tokens_agree e :
  truthy (ADMIN_TOKEN server_js e) = truthy (ADMIN_TOKEN part_000 e) /\
  (truthy (ADMIN_TOKEN server_js e) = true ->
   ADMIN_TOKEN server_js e = ADMIN_TOKEN part_000 e).
Proof.
  simpl. unfold or_else.
  destruct (truthy (env_value (env_SHOPIFY_ADMIN_TOKEN e))) eqn:H.
  - rewrite H. auto.
  - split; [reflexivity | discriminate].
Qed.

(** Under a token, a query and its variables make the same request in
    both sources. *)
Lemma same_request e q vars :
  truthy (ADMIN_TOKEN server_js e) = true ->
  graphql_request server_js e q vars = graphql_request part_000 e q vars.
Proof.
  intros Htok. unfold graphql_request.
  rewrite (proj2 (tokens_agree e) Htok). reflexivity.
Qed.

(** Under a token, the two mutation requests for one order are paired
    by [naming]. *)
Lemma naming_orders e input :
  truthy (ADMIN_TOKEN server_js e) = true ->
  naming (order_request_to server_js e input) (order_request_to part_000 e input).
Proof.
  intros Htok. right. unfold order_request_to, graphql_request.
  cbn [url method headers body]. rewrite (proj2 (tokens_agree e) Htok).
  repeat split. exists input. split; reflexivity.
Qed.

Lemma sim_graphql R e up q1 q2 vars1 vars2 :
  respects R up ->
  (truthy (ADMIN_TOKEN server_js e) = true ->
   R (graphql_request server_js e q1 vars1) (graphql_request part_000 e q2 vars2)) ->
  sim R (shopifyAdminGraphQL server_js e up q1 vars1)
        (shopifyAdminGraphQL part_000 e up q2 vars2).
Proof.
  intros Hup HR. unfold shopifyAdminGraphQL.
  destruct (tokens_agree e) as [Hsame _]. rewrite <- Hsame.
  destruct (truthy (ADMIN_TOKEN server_js e)) eqn:Htok; cbn [negb].
  - apply sim_bind.
    + apply sim_fetch; [assumption | apply HR; reflexivity].
    + intros res. sim.
  - apply sim_throw.
Qed.

Lemma sim_stock_body engine e up req :
  sim eq (stock_body engine server_js e up req) (stock_body engine part_000 e up req).
Proof.
  unfold stock_body. cbv zeta.
  destruct (truthy (assoc "productId" (query req))); cbn [negb].
  - apply sim_bind.
    + apply sim_graphql; [apply respects_eq | apply same_request].
    + intros data. sim.
  - sim.
Qed.

Lemma sim_create_order_body e up req :
  respects naming up ->
  sim naming (create_order_body server_js e up req) (create_order_body part_000 e up req).
Proof.
  intros Hup. unfold create_order_body. cbv zeta.
  sim; (apply sim_graphql; [assumption | intros Htok]).
  - left. apply same_request. assumption.
  - apply naming_orders. assumption.
Qed.

(** A handler that catches everything into the same response answers
    the same on both sides. *)
Lemma sim_caught {A} R (body1 body2 : M A) (h1 h2 : exn -> M A) (fallback : A) w1 w2 :
  sim R body1 body2 ->
  (forall x w, fst (h1 x w) = Ret fallback /\ calls (snd (h1 x w)) = calls w) ->
  (forall x w, fst (h2 x w) = Ret fallback /\ calls (snd (h2 x w)) = calls w) ->
  alike R w1 w2 ->
  fst (try_catch body1 h1 w1) = fst (try_catch body2 h2 w2) /\
  alike R (snd (try_catch body1 h1 w1)) (snd (try_catch body2 h2 w2)).
Proof.
  intros Hb H1 H2 Hw. unfold try_catch. destruct (Hb w1 w2 Hw) as [Hw' Ho].
  destruct (body1 w1) as [[a | x] w1'], (body2 w2) as [[b | y] w2']; simpl in *;
    try contradiction.
  - subst b. auto.
  - destruct (H1 x w1') as [-> Hc1], (H2 y w2') as [-> Hc2].
    unfold alike. rewrite Hc1, Hc2. auto.
Qed.

(** C9, as the code has it.  On the stock route [server.js] and the
    other source send the same requests and give the caller the same
    response, for every environment, request and upstream.  On the
    order route they give the same response for every upstream that
    answers alike to the two forms of the mutation; the requests they
    send are then the same, but for the mutation, whose two bodies
    differ in the mutation's text and in the name ([order], [input])
    under which the same order is sent. *)
Theorem sources_answer_alike engine e up req :
  (fst (get_stock engine server_js e up req start) =
     fst (get_stock engine part_000 e up req start) /\
   calls (snd (get_stock engine server_js e up req start)) =
     calls (snd (get_stock engine part_000 e up req start))) /\
  (respects naming up ->
   fst (create_order server_js e up req start) =
     fst (create_order part_000 e up req start) /\
   Forall2 naming
     (calls (snd (create_order server_js e up req start)))
     (calls (snd (create_order part_000 e up req start)))).
Proof.
  split.
  - assert (Hstart : alike eq start start) by constructor.
    assert (H : fst (get_stock engine server_js e up req start) =
                  fst (get_stock engine part_000 e up req start) /\
                alike eq (snd (get_stock engine server_js e up req start))
                         (snd (get_stock engine part_000 e up req start))).
    { unfold get_stock.
      eapply sim_caught with (fallback := internal_error);
        [apply sim_stock_body | | | exact Hstart]; intros x w; split; reflexivity. }
    destruct H as [Hfst Hcalls].
    split; [exact Hfst | apply alike_eq; exact Hcalls].
  - intros Hup.
    assert (Hstart : alike naming start start) by constructor.
    unfold create_order.
    eapply sim_caught with (fallback := internal_error);
      [apply sim_create_order_body; assumption | | | exact Hstart];
      intros x w; split; reflexivity.
Qed.

(** ** The claims on concrete runs *)

Lemma scripted_answers script earlier rq data :
  nth_error script (List.length earlier) = Some (Run.graphql data) ->
  answers_data (scripted script) earlier rq data.
Proof.
  intros H. exists 200, [("data", JObj data)]. unfold scripted.
  rewrite (nth_error_nth _ _ _ H). repeat split.
Qed.

Lemma one_variant_resolved :
  first_variant (Run.variant_data Run.one_edge) (str Run.variant_id).
Proof. repeat eexists. Qed.

(** An upstream inventory of -3 comes back as quantity -3 in a 200:
    the quantity of a success is not always >= 0. *)
Lemma negative_inventory_reported :
  fst (get_stock Run.engine server_js Run.env (scripted [Run.inventory (-3)])
         Run.stock_req start) =
    Ret {| status := 200;
           sent := JObj [("productId", JStr Run.product_id);
                         ("quantity", JNum (-3));
                         ("available", JBool false)] |}
  /\ ~ (0 <= -3).
Proof. split; [reflexivity | lia]. Qed.

(** A quantity of -1 is present and is no positive count, yet the
    request is not stopped at validation: both upstream calls are made,
    the mutation carrying -1 as the line item's quantity. *)
Lemma negative_quantity_reaches_upstream :
  let req := Run.order_req [("quantity", JNum (-1))] in
  let run := create_order server_js Run.env
               (scripted [Run.one_variant; Run.order_refused]) req start in
  body_field req "quantity" = num (-1) /\
  positive_count (body_field req "quantity") = false /\
  calls (snd run) =
    [variant_request_to server_js Run.env (str Run.product_id);
     order_request_to server_js Run.env
       (JObj [("email", JStr "no-email@example.com");
              ("lineItems",
               JArr [JObj [("quantity", JNum (-1));
                           ("variantId", JStr "gid://shopify/ProductVariant/7")]]);
              ("tags", JArr [JStr "WeChat Mini Program"]);
              ("note", JStr "Order from WeChat Mini Program");
              ("financialStatus", JStr "PAID")])] /\
  calls (snd run) <> [].
Proof. repeat split; try reflexivity. discriminate. Qed.

(** An email that is present but empty is not what the order carries:
    the default takes its place. *)
Lemma empty_email_replaced :
  let req := Run.order_req [("quantity", JNum 2); ("email", JStr "")] in
  let run := create_order server_js Run.env
               (scripted [Run.one_variant; Run.order_created]) req start in
  body_field req "email" = str "" /\
  exists order,
    nth_error (calls (snd run)) 1 = Some (order_request_to server_js Run.env (JObj order)) /\
    assoc "email" order = str "no-email@example.com" /\
    assoc "email" order <> body_field req "email".
Proof.
  split; [reflexivity |]. eexists. split; [reflexivity |].
  split; [reflexivity | discriminate].
Qed.

Lemma get_stock_reports_inventory_witness :
  fst (get_stock Run.engine server_js Run.env (scripted [Run.inventory 5])
         Run.stock_req start) =
    Ret {| status := 200;
           sent := JObj [("productId", JStr Run.product_id);
                         ("quantity", JNum 5);
                         ("available", JBool true)] |}.
Proof.
  apply (proj1 (get_stock_reports_inventory Run.engine server_js Run.env
                  (scripted [Run.inventory 5]) Run.stock_req)
           (Run.stock_data 5) (Run.stock_product 5)).
  - reflexivity.
  - reflexivity.
  - apply scripted_answers. reflexivity.
  - reflexivity.
Defined.

Lemma create_order_no_variant_witness :
  create_order part_000 Run.env (scripted [Run.variants []])
    (Run.order_req [("quantity", JNum 2)]) start =
    (Ret {| status := 404;
            sent := JObj [("error", JStr "Product or variant not found")] |},
     {| calls := [variant_request_to part_000 Run.env (str Run.product_id)];
        console := [] |}).
Proof.
  apply (create_order_no_variant part_000 Run.env (scripted [Run.variants []])
           (Run.order_req [("quantity", JNum 2)])
           (Run.variant_data [])).
  - reflexivity.
  - reflexivity.
  - reflexivity.
  - apply scripted_answers. reflexivity.
  - right. repeat eexists.
Defined.

Lemma create_order_user_errors_witness :
  create_order server_js Run.env (scripted [Run.one_variant; Run.order_refused])
    (Run.order_req [("quantity", JNum 2)]) start =
    (Ret {| status := 400;
            sent := JObj [("error", JStr "Shopify order error");
                          ("details", JArr Run.user_errors)] |},
     {| calls := [variant_request_to server_js Run.env (str Run.product_id);
                  order_request_to server_js Run.env
                    (orderInput (num 2) undefined undefined (str Run.variant_id))];
        console := [[LValue (str "orderCreate userErrors");
                     LValue (Some (JArr Run.user_errors))]] |}).
Proof.
  apply (create_order_user_errors server_js Run.env
           (scripted [Run.one_variant; Run.order_refused])
           (Run.order_req [("quantity", JNum 2)])
           (Run.variant_data Run.one_edge) (str Run.variant_id)
           Run.refused_data Run.refusal).
  - reflexivity.
  - reflexivity.
  - reflexivity.
  - apply scripted_answers. reflexivity.
  - exact one_variant_resolved.
  - apply scripted_answers. reflexivity.
  - reflexivity.
  - reflexivity.
Defined.

Lemma create_order_missing_field_witness :
  create_order server_js Run.env (scripted []) (Run.order_req []) start =
    (Ret {| status := 400;
            sent := JObj [("error", JStr "Missing productId or quantity")] |},
     start)
  /\ calls (snd (create_order server_js Run.env (scripted []) (Run.order_req []) start)) = [].
Proof.
  apply create_order_missing_field. right. reflexivity.
Defined.

Lemma create_order_zero_quantity_witness :
  create_order server_js Run.env (scripted [Run.one_variant; Run.order_created])
    (Run.order_req [("quantity", JNum 0)]) start =
    (Ret {| status := 400;
            sent := JObj [("error", JStr "Missing productId or quantity")] |},
     start)
  /\ calls (snd (create_order server_js Run.env
                   (scripted [Run.one_variant; Run.order_created])
                   (Run.order_req [("quantity", JNum 0)]) start)) = [].
Proof.
  apply create_order_zero_quantity. reflexivity.
Defined.

Lemma create_order_quantity_check_witness :
  exists more,
    calls (snd (create_order server_js Run.env
                  (scripted [Run.one_variant; Run.order_refused])
                  (Run.order_req [("quantity", JNum (-1))]) start)) =
      variant_request_to server_js Run.env (str Run.product_id) :: more.
Proof.
  exact (create_order_quantity_check server_js Run.env
           (scripted [Run.one_variant; Run.order_refused])
           (Run.order_req [("quantity", JNum (-1))]) eq_refl eq_refl).
Defined.

Lemma get_stock_quantity_verbatim_witness :
  exists st top data product inventory productId quantity available,
    scripted [Run.inventory (-3)] []
      (stock_request_to server_js Run.env (str Run.product_id)) =
      HttpResponse st (Some top) /\
    prop (Some top) "data" = Ret data /\
    prop data "product" = Ret product /\
    prop product "totalInventory" = Ret inventory /\
    JObj [("productId", JStr Run.product_id); ("quantity", JNum (-3));
          ("available", JBool false)] =
      JObj [("productId", productId); ("quantity", quantity);
            ("available", JBool available)] /\
    (forall n, inventory = num n -> quantity = JNum n) /\
    (inventory = undefined \/ inventory = Some JNull -> quantity = JNum 0).
Proof.
  exact (get_stock_quantity_verbatim Run.engine server_js Run.env
           (scripted [Run.inventory (-3)]) Run.stock_req
           {| status := 200;
              sent := JObj [("productId", JStr Run.product_id); ("quantity", JNum (-3));
                            ("available", JBool false)] |}
           eq_refl eq_refl).
Defined.

Lemma order_payload_defaults_witness :
  exists order,
    nth_error (calls (snd (create_order server_js Run.env
                             (scripted [Run.one_variant; Run.order_created])
                             (Run.order_req [("quantity", JNum 2); ("email", JStr "")])
                             start))) 1 =
      Some (order_request_to server_js Run.env (JObj order)) /\
    assoc "email" order = str "no-email@example.com" /\
    assoc "note" order = str "Order from WeChat Mini Program" /\
    assoc "financialStatus" order = str "PAID".
Proof.
  assert (Hup : answers_data (scripted [Run.one_variant; Run.order_created]) []
                   (variant_request_to server_js Run.env (str Run.product_id))
                   (Run.variant_data Run.one_edge)).
  { apply scripted_answers. reflexivity. }
  destruct (order_payload_defaults server_js Run.env
              (scripted [Run.one_variant; Run.order_created])
              (Run.order_req [("quantity", JNum 2); ("email", JStr "")])
              (Run.variant_data Run.one_edge) (str Run.variant_id)
              eq_refl eq_refl eq_refl Hup one_variant_resolved)
    as (order & Hcall & _ & Hemail & _ & Hnote & Hpaid).
  exists order. split; [exact Hcall |].
  split; [exact (Hemail eq_refl) |]. split; [exact (Hnote eq_refl) | exact Hpaid].
Defined.

Lemma no_token_fails_per_request_witness :
  (exists cfg banner,
     main server_js Run.listen Run.env_without_token = Listening cfg (num 3000) banner /\
     truthy (cfg_token cfg) = false) /\
  get_stock Run.engine server_js Run.env_without_token (scripted []) Run.stock_req start =
    (Ret {| status := 500; sent := JObj [("error", JStr "Internal error")] |},
     {| calls := [];
        console := [[LValue (str "GET /api/stock error");
                     LError (Error (str "Missing SHOPIFY_ADMIN_TOKEN (Admin API token)"))]] |}).
Proof.
  destruct (no_token_fails_per_request Run.engine server_js Run.listen
              Run.env_without_token (scripted []) (or_introl eq_refl) eq_refl)
    as (_ & Hmain & Hstock & _).
  split; [exact (Hmain eq_refl) | exact (Hstock Run.stock_req eq_refl)].
Defined.

(** An upstream that reads the mutation tells the two sources apart:
    the order that [server.js] gets created is, sent by the other
    source, a GraphQL error and a 500. *)
Lemma sources_differ_on_mutation :
  let req := Run.order_req [("quantity", JNum 2)] in
  fst (create_order server_js Run.env Run.versioned req start) =
    Ret {| status := 200;
           sent := JObj [("success", JBool true); ("order", Run.created_order)] |} /\
  fst (create_order part_000 Run.env Run.versioned req start) =
    Ret {| status := 500; sent := JObj [("error", JStr "Internal error")] |} /\
  fst (create_order server_js Run.env Run.versioned req start) <>
    fst (create_order part_000 Run.env Run.versioned req start).
Proof.
  repeat split; try reflexivity. discriminate.
Qed.

Lemma lenient_respects : respects naming Run.lenient.
Proof.
  intros l1 l2 r1 r2 Hl Hr. unfold Run.lenient.
  destruct Hl as [| a b l1 l2 _ _]; [reflexivity |].
  destruct Hr as [-> | (_ & _ & _ & input & Ha & Hb)]; [reflexivity |].
  unfold Run.order_of, Run.variables_of. rewrite Ha, Hb. reflexivity.
Qed.

Lemma sources_answer_alike_witness :
  fst (create_order server_js Run.env Run.lenient
         (Run.order_req [("quantity", JNum 2)]) start) =
    fst (create_order part_000 Run.env Run.lenient
           (Run.order_req [("quantity", JNum 2)]) start) /\
  Forall2 naming
    (calls (snd (create_order server_js Run.env Run.lenient
                   (Run.order_req [("quantity", JNum 2)]) start)))
    (calls (snd (create_order part_000 Run.env Run.lenient
                   (Run.order_req [("quantity", JNum 2)]) start))).
Proof.
  apply (proj2 (sources_answer_alike Run.engine Run.env Run.lenient
                  (Run.order_req [("quantity", JNum 2)]))).
  exact lenient_respects.
Defined.

(** ** Further properties of the handlers *)

(** *** The stock route, path by path *)

(** X1.  A stock request without a productId, or with an empty one, is
    answered 400 "Missing productId"; nothing is sent upstream and
    nothing is logged. *)
Theorem get_stock_missing_productId engine src e up req :
  truthy (assoc "productId" (query req)) = false ->
  get_stock engine src e up req start =
    (Ret {| status := 400; sent := JObj [("error", JStr "Missing productId")] |}, start).
Proof.
  intros Hpid. unfold get_stock, try_catch, stock_body. cbv zeta.
  rewrite Hpid. reflexivity.
Qed.

(** X2.  When the upstream's data holds no product for the id (a
    [product] that is null, or missing), the stock request is answered
    404 "Product not found", after the one stock query. *)
Theorem get_stock_not_found engine src e up req data :
  truthy (assoc "productId" (query req)) = true ->
  truthy (ADMIN_TOKEN src e) = true ->
  answers_data up [] (stock_request_to src e (assoc "productId" (query req))) data ->
  truthy (assoc "product" data) = false ->
  get_stock engine src e up req start =
    (Ret {| status := 404; sent := JObj [("error", JStr "Product not found")] |},
     {| calls := [stock_request_to src e (assoc "productId" (query req))];
        console := [] |}).
Proof.
  intros Hpid Htok Hup Hnone.
  unfold get_stock, try_catch, stock_body. cbv zeta. rewrite Hpid. cbn [negb].
  rewrite (bind_eq _ _ _ _ _ (graphql_returns src e up _ _ start data Htok Hup)).
  run ltac:(rewrite ?Hnone). reflexivity.
Qed.

(** X3.  With a productId and a token, the stock route sends exactly
    one request, the stock query with that id as its variable,
    whatever the upstream answers. *)
Theorem get_stock_one_query engine src e up req :
  truthy (assoc "productId" (query req)) = true ->
  truthy (ADMIN_TOKEN src e) = true ->
  calls (snd (get_stock engine src e up req start)) =
    [graphql_request src e stockQuery
       (Some (JObj (defined [("id", assoc "productId" (query req))])))].
Proof.
  intros Hpid Htok. unfold get_stock.
  rewrite calls_try_catch by (intros x; quiet).
  unfold stock_body. cbv zeta. rewrite Hpid. cbn [negb].
  rewrite calls_bind.
  - rewrite graphql_calls_once by assumption. reflexivity.
  - intros data. quiet.
Qed.

(** X4.  When the upstream answers the stock query with a status
    outside 200..299, the caller gets the generic 500; the status and
    the upstream's body go to the console, none of it to the caller. *)
Theorem get_stock_upstream_status engine src e up req st top :
  truthy (assoc "productId" (query req)) = true ->
  truthy (ADMIN_TOKEN src e) = true ->
  up [] (stock_request_to src e (assoc "productId" (query req))) =
    HttpResponse st (Some top) ->
  ok st = false ->
  get_stock engine src e up req start =
    (Ret {| status := 500; sent := JObj [("error", JStr "Internal error")] |},
     {| calls := [stock_request_to src e (assoc "productId" (query req))];
        console :=
          [[LValue (str "Shopify HTTP error"); LValue (num st); LValue (Some top)];
           [LValue (str "GET /api/stock error");
            LError (Error (str ("Shopify HTTP " ++ string_of_Z st)))]] |}).
Proof.
  intros Hpid Htok Hup Hok.
  unfold get_stock, try_catch, stock_body. cbv zeta. rewrite Hpid. cbn [negb].
  unfold bind at 1. unfold shopifyAdminGraphQL. rewrite Htok. cbn [negb].
  unfold bind at 1. unfold fetch. cbn [calls start].
  unfold stock_request_to in Hup. rewrite Hup. cbn [snd fst res_json].
  rewrite bind_ret. rewrite Hok. reflexivity.
Qed.

(** *** The upstream call, outcome by outcome *)

Lemma get_opt_first_message errs w :
  bind (index0 (Some (JArr errs))) (fun first => get_opt first "message") w =
    (Ret (first_message errs), w).
Proof.
  destruct errs as [| [| b | n | s | items | props] rest]; reflexivity.
Qed.

(** X5.  A 2xx answer that carries an [errors] array is a failure,
    even when the array is empty and even when [data] is there too:
    the call throws, with the first error's message when it has a
    truthy one and "Shopify GraphQL error" otherwise, after logging the
    array. *)
Theorem graphql_errors_thrown src e up q vars w st top errs :
  truthy (ADMIN_TOKEN src e) = true ->
  up (calls w) (graphql_request src e q vars) = HttpResponse st (Some (JObj top)) ->
  ok st = true ->
  assoc "errors" top = Some (JArr errs) ->
  shopifyAdminGraphQL src e up q vars w =
    (Throw (Error (or_else (first_message errs) (str "Shopify GraphQL error"))),
     {| calls := calls w ++ [graphql_request src e q vars];
        console := console w ++
                   [[LValue (str "Shopify GraphQL errors"); LValue (Some (JArr errs))]] |}).
Proof.
  intros Htok Hup Hok Herrs.
  unfold shopifyAdminGraphQL. rewrite Htok. cbn [negb].
  unfold bind at 1. unfold fetch. rewrite Hup. cbn [snd fst res_json].
  rewrite bind_ret. rewrite Hok. cbn [negb].
  rewrite get_object, bind_ret, Herrs. cbn [truthy].
  unfold bind at 1. cbn [console_error].
  rewrite <- bind_bind, (bind_eq _ _ _ _ _ (get_opt_first_message errs _)).
  reflexivity.
Qed.

(** What a returning upstream call has seen, in full. *)
Lemma graphql_Ret_all src e up q vars w data w1 :
  shopifyAdminGraphQL src e up q vars w = (Ret data, w1) ->
  truthy (ADMIN_TOKEN src e) = true /\
  (exists st top errors,
     up (calls w) (graphql_request src e q vars) = HttpResponse st (Some top) /\
     ok st = true /\
     prop (Some top) "errors" = Ret errors /\
     truthy errors = false /\
     prop (Some top) "data" = Ret data) /\
  w1 = {| calls := calls w ++ [graphql_request src e q vars]; console := console w |}.
Proof.
  unfold shopifyAdminGraphQL.
  destruct (truthy (ADMIN_TOKEN src e)); cbn [negb]; [| discriminate].
  intros H. split; [reflexivity |].
  apply bind_Ret_inv in H as ([st payload] & w2 & Hfetch & H).
  apply bind_Ret_inv in H as (body & w3 & Hjson & H).
  cbn [fst snd] in *.
  unfold fetch in Hfetch.
  destruct (up (calls w) _) as [reason | st' payload'] eqn:Hup; [discriminate |].
  inversion Hfetch; subst; clear Hfetch.
  destruct payload as [top |]; [| discriminate].
  inversion Hjson; subst; clear Hjson.
  destruct (ok st) eqn:Hok; cbn [negb] in H.
  2: { apply bind_Ret_inv in H as (u & w4 & _ & H). discriminate. }
  apply bind_Ret_inv in H as (errors & w4 & Herrors & H).
  apply lift_Ret_inv in Herrors as [Herrors ->].
  destruct (truthy errors) eqn:Hfalsy.
  { apply bind_Ret_inv in H as (u & w5 & _ & H).
    apply bind_Ret_inv in H as (first & w6 & _ & H).
    apply bind_Ret_inv in H as (message & w7 & _ & H). discriminate. }
  apply lift_Ret_inv in H as [H ->].
  split; [| reflexivity].
  exists st, top, errors. repeat split; assumption.
Qed.

(** X6.  The upstream call returns [data] in exactly one case: a token
    is configured, the upstream answers with a 2xx status and a JSON
    body whose [errors] is falsy, and [data] is that body's [data].
    It has then made one request and logged nothing. *)
Theorem graphql_returns_iff src e up q vars w data w1 :
  shopifyAdminGraphQL src e up q vars w = (Ret data, w1) <->
  truthy (ADMIN_TOKEN src e) = true /\
  (exists st top errors,
     up (calls w) (graphql_request src e q vars) = HttpResponse st (Some top) /\
     ok st = true /\
     prop (Some top) "errors" = Ret errors /\
     truthy errors = false /\
     prop (Some top) "data" = Ret data) /\
  w1 = {| calls := calls w ++ [graphql_request src e q vars]; console := console w |}.
Proof.
  split.
  - apply graphql_Ret_all.
  - intros (Htok & (st & top & errors & Hup & Hok & Herrors & Hfalsy & Hdata) & ->).
    unfold shopifyAdminGraphQL. rewrite Htok. cbn [negb].
    unfold bind at 1. unfold fetch. rewrite Hup. cbn [snd fst res_json].
    rewrite bind_ret. rewrite Hok. cbn [negb].
    unfold get, bind, lift. rewrite Herrors, Hfalsy, Hdata. reflexivity.
Qed.

(** *** Every request is answered, and with one of a few responses *)

Lemma yields_ret {A} (P : A -> Prop) (a : A) : P a -> yields P (ret a).
Proof. intros H w. exact H. Qed.

Lemma yields_bind {A B} (P : B -> Prop) (m : M A) (k : A -> M B) :
  (forall a, yields P (k a)) -> yields P (bind m k).
Proof.
  intros Hk w. unfold bind. destruct (m w) as [[a | x] w'].
  - apply Hk.
  - exact I.
Qed.

(** A handler that catches everything into [fallback] always returns. *)
Lemma caught_yields {A} (P : A -> Prop) (body : M A) (handler : exn -> M A) fallback w :
  yields P body ->
  (forall x w', fst (handler x w') = Ret fallback) ->
  P fallback ->
  exists a w', try_catch body handler w = (Ret a, w') /\ P a.
Proof.
  intros Hbody Hhandler Hfallback. unfold try_catch. specialize (Hbody w).
  destruct (body w) as [[a | x] w1]; simpl in Hbody.
  - eauto.
  - specialize (Hhandler x w1). destruct (handler x w1) as [o w2]. simpl in Hhandler.
    subst o. eauto.
Qed.

Ltac yields :=
  repeat first
    [ apply yields_bind; intros ?
    | match goal with
      | |- yields _ (if ?b then _ else _) => destruct b eqn:?
      end ].

Lemma stock_body_yields engine src e up req :
  yields (stock_answer (assoc "productId" (query req))) (stock_body engine src e up req).
Proof.
  unfold stock_body. cbv zeta. yields; apply yields_ret; unfold stock_answer.
  - left. reflexivity.
  - right. left. reflexivity.
  - right. right. right. eauto.
Qed.

(** X7.  The stock route never lets an exception out: whatever the
    request, the configuration and the upstream, it answers, and its
    answer is the 400 "Missing productId", the 404
    "Product not found", the generic 500, or a 200 of the shape
    [{ productId, quantity, available }]. *)
Theorem get_stock_always_answers engine src e up req w :
  exists r w',
    get_stock engine src e up req w = (Ret r, w') /\
    stock_answer (assoc "productId" (query req)) r.
Proof.
  unfold get_stock. apply caught_yields with (fallback := internal_error).
  - apply stock_body_yields.
  - reflexivity.
  - right. right. left. reflexivity.
Qed.

Lemma create_order_body_yields src e up req :
  yields order_answer (create_order_body src e up req).
Proof.
  unfold create_order_body. cbv zeta. yields; apply yields_ret; unfold order_answer.
  - left. reflexivity.
  - right. left. reflexivity.
  - right. right. right. left. eauto.
  - right. right. right. right. eauto.
Qed.

(** X8.  The order route never lets an exception out either: it always
    answers, with the 400 "Missing productId or quantity", the 404
    "Product or variant not found", the generic 500, a 400
    "Shopify order error" with [details], or a 200 with
    [success: true] and the order. *)
Theorem create_order_always_answers src e up req w :
  exists r w',
    create_order src e up req w = (Ret r, w') /\ order_answer r.
Proof.
  unfold create_order. apply caught_yields with (fallback := internal_error).
  - apply create_order_body_yields.
  - reflexivity.
  - right. right. left. reflexivity.
Qed.

(** *** What goes upstream *)

Lemma sends_quiet {A} P n (m : M A) : quiet m -> sends P n m.
Proof.
  intros H w. exists []. rewrite H, app_nil_r.
  split; [reflexivity | split; [constructor | apply Nat.le_0_l]].
Qed.

Lemma sends_bind_quiet {A B} P n (m : M A) (k : A -> M B) :
  quiet m -> (forall a, sends P n (k a)) -> sends P n (bind m k).
Proof.
  intros Hm Hk w. unfold bind. specialize (Hm w).
  destruct (m w) as [[a | x] w1]; simpl in Hm.
  - destruct (Hk a w1) as (more & Hmore & HP & Hn). exists more.
    rewrite Hmore, Hm. auto.
  - exists []. simpl. rewrite Hm, app_nil_r.
    split; [reflexivity | split; [constructor | apply Nat.le_0_l]].
Qed.

Lemma sends_bind_step {A B} P n (m : M A) (k : A -> M B) :
  sends P 1 m -> (forall a, sends P n (k a)) -> sends P (S n) (bind m k).
Proof.
  intros Hm Hk w. unfold bind. destruct (Hm w) as (first & Hfirst & HP & Hone).
  destruct (m w) as [[a | x] w1]; simpl in Hfirst.
  - destruct (Hk a w1) as (more & Hmore & HP' & Hn). exists (first ++ more)%list.
    rewrite Hmore, Hfirst, app_assoc. split; [reflexivity |].
    split; [apply Forall_app; auto |]. rewrite length_app. lia.
  - exists first. simpl. split; [assumption | split; [assumption | lia]].
Qed.

Lemma sends_try_catch {A} P n (body : M A) (handler : exn -> M A) :
  sends P n body -> (forall x, quiet (handler x)) -> sends P n (try_catch body handler).
Proof.
  intros Hb Hh w. rewrite calls_try_catch by assumption. apply Hb.
Qed.

Lemma sends_graphql src e up q vars :
  sends (bridge_call src e) 1 (shopifyAdminGraphQL src e up q vars).
Proof.
  intros w. destruct (truthy (ADMIN_TOKEN src e)) eqn:Htok.
  - exists [graphql_request src e q vars].
    split; [apply graphql_calls_once; assumption |].
    split; [| apply Nat.le_refl].
    constructor; [| constructor]. unfold bridge_call. auto.
  - rewrite graphql_without_token by assumption. exists []. simpl.
    rewrite app_nil_r. split; [reflexivity | split; [constructor | apply Nat.le_0_l]].
Qed.

Ltac sends :=
  repeat first
    [ apply sends_graphql
    | solve [apply sends_quiet; quiet]
    | apply sends_bind_quiet; [solve [quiet] | intros ?]
    | apply sends_bind_step; [apply sends_graphql | intros ?]
    | match goal with
      | |- sends _ _ (if ?b then _ else _) => destruct b
      end ].

Lemma get_stock_sends engine src e up req :
  sends (bridge_call src e) 1 (get_stock engine src e up req).
Proof.
  unfold get_stock. apply sends_try_catch; [| intros x; quiet].
  unfold stock_body. cbv zeta. sends.
Qed.

Lemma create_order_sends src e up req :
  sends (bridge_call src e) 2 (create_order src e up req).
Proof.
  unfold create_order. apply sends_try_catch; [| intros x; quiet].
  unfold create_order_body. cbv zeta. sends.
Qed.

(** X9.  One request costs the upstream at most one call on the stock
    route and at most two on the order route: there is no retry and no
    compensating call, whatever fails. *)
Theorem calls_per_request engine src e up req :
  (List.length (calls (snd (get_stock engine src e up req start))) <= 1)%nat /\
  (List.length (calls (snd (create_order src e up req start))) <= 2)%nat.
Proof.
  split.
  - destruct (get_stock_sends engine src e up req start) as (more & Hmore & _ & Hn).
    rewrite Hmore. assumption.
  - destruct (create_order_sends src e up req start) as (more & Hmore & _ & Hn).
    rewrite Hmore. assumption.
Qed.

(** X10.  Every request either route sends is a POST to
    [https://<domain>/admin/api/2024-07/graphql.json] with the JSON
    content type and the access-token header, and the token it carries
    is truthy: nothing is ever sent without a token. *)
Theorem calls_are_bridge_calls engine src e up req :
  Forall (bridge_call src e) (calls (snd (get_stock engine src e up req start))) /\
  Forall (bridge_call src e) (calls (snd (create_order src e up req start))).
Proof.
  split.
  - destruct (get_stock_sends engine src e up req start) as (more & Hmore & HP & _).
    rewrite Hmore. assumption.
  - destruct (create_order_sends src e up req start) as (more & Hmore & HP & _).
    rewrite Hmore. assumption.
Qed.

(** *** The order route, path by path *)

(** X11.  When the variant is resolved and the mutation comes back
    with no user errors ([userErrors] falsy, or an empty array), the
    order route answers 200 with [success: true] and the upstream's
    order as it came, after the two calls and without logging. *)
Theorem create_order_success src e up req data variantId reply result :
  truthy (body_field req "productId") = true ->
  truthy (body_field req "quantity") = true ->
  truthy (ADMIN_TOKEN src e) = true ->
  answers_data up [] (variant_request_to src e (body_field req "productId")) data ->
  first_variant data variantId ->
  answers_data up [variant_request_to src e (body_field req "productId")]
    (order_request_to src e
       (orderInput (body_field req "quantity") (body_field req "email")
                   (body_field req "note") variantId)) reply ->
  assoc "orderCreate" reply = Some (JObj result) ->
  truthy (assoc "userErrors" result) = false \/
    assoc "userErrors" result = Some (JArr []) ->
  create_order src e up req start =
    (Ret {| status := 200;
            sent := object [("success", Some (JBool true));
                            ("order", assoc "order" result)] |},
     {| calls := [variant_request_to src e (body_field req "productId");
                  order_request_to src e
                    (orderInput (body_field req "quantity") (body_field req "email")
                                (body_field req "note") variantId)];
        console := [] |}).
Proof.
  intros Hpid Hqty Htok Hup (product & variants & edge & others & node & Hp & Hv & He & Hn & Hid)
         Hup2 Hres Herrs.
  unfold create_order, try_catch.
  rewrite create_order_body_eq, Hpid, Hqty. cbn [negb orb].
  unfold resolve_and_order.
  rewrite (bind_eq _ _ _ _ _ (graphql_returns src e up _ _ start data Htok Hup)).
  run ltac:(rewrite ?Hp, ?Hv, ?He, ?Hn, ?Hid).
  erewrite bind_eq by (apply graphql_returns; [exact Htok | exact Hup2]).
  destruct Herrs as [Herrs | Herrs]; run ltac:(rewrite ?Hres, ?Herrs); reflexivity.
Qed.

(** X12.  No rollback: when the variant is resolved and the mutation
    then fails in transport, the caller gets the generic 500, and the
    two calls already made are all there is; the failure is logged. *)
Theorem create_order_transport_failure src e up req data variantId reason :
  truthy (body_field req "productId") = true ->
  truthy (body_field req "quantity") = true ->
  truthy (ADMIN_TOKEN src e) = true ->
  answers_data up [] (variant_request_to src e (body_field req "productId")) data ->
  first_variant data variantId ->
  up [variant_request_to src e (body_field req "productId")]
    (order_request_to src e
       (orderInput (body_field req "quantity") (body_field req "email")
                   (body_field req "note") variantId)) = NetworkFailure reason ->
  create_order src e up req start =
    (Ret {| status := 500; sent := JObj [("error", JStr "Internal error")] |},
     {| calls := [variant_request_to src e (body_field req "productId");
                  order_request_to src e
                    (orderInput (body_field req "quantity") (body_field req "email")
                                (body_field req "note") variantId)];
        console := [[LValue (str "POST /api/create-order error");
                     LError (FetchError reason)]] |}).
Proof.
  intros Hpid Hqty Htok Hup (product & variants & edge & others & node & Hp & Hv & He & Hn & Hid)
         Hup2.
  unfold create_order, try_catch.
  rewrite create_order_body_eq, Hpid, Hqty. cbn [negb orb].
  unfold resolve_and_order.
  rewrite (bind_eq _ _ _ _ _ (graphql_returns src e up _ _ start data Htok Hup)).
  run ltac:(rewrite ?Hp, ?Hv, ?He, ?Hn, ?Hid).
  unfold bind at 1. unfold shopifyAdminGraphQL. rewrite Htok. cbn [negb].
  unfold bind at 1. unfold fetch. cbn [calls start app].
  unfold order_request_to, variant_request_to in Hup2. rewrite Hup2. reflexivity.
Qed.

Lemma bind_get {A} (v : value) (k : string) (f : value -> M A) w :
  bind (get v k) f w =
    match prop v k with
    | Ret a => f a w
    | Throw x => (Throw x, w)
    end.
Proof. unfold bind, get, lift. destruct (prop v k); reflexivity. Qed.

(** X13.  The mutation is sent only for a resolved product: if the
    order route made two calls, then the request passed validation, a
    token was configured, and the answer to the variant query was a
    2xx whose [data.product] is truthy and whose
    [variants.edges.length] is truthy. *)
Theorem mutation_needs_variant src e up req :
  List.length (calls (snd (create_order src e up req start))) = 2%nat ->
  truthy (body_field req "productId") = true /\
  truthy (body_field req "quantity") = true /\
  truthy (ADMIN_TOKEN src e) = true /\
  exists st top data product variants edges len,
    up [] (variant_request_to src e (body_field req "productId")) =
      HttpResponse st (Some top) /\
    ok st = true /\
    prop (Some top) "data" = Ret data /\
    prop data "product" = Ret product /\
    truthy product = true /\
    prop product "variants" = Ret variants /\
    prop variants "edges" = Ret edges /\
    prop edges "length" = Ret len /\
    truthy len = true.
Proof.
  unfold create_order. rewrite calls_try_catch by (intros x; quiet).
  rewrite create_order_body_eq.
  destruct (truthy (body_field req "productId")) eqn:Hpid; cbn [negb orb];
    [| discriminate].
  destruct (truthy (body_field req "quantity")) eqn:Hqty; cbn [negb orb];
    [| discriminate].
  unfold resolve_and_order. unfold bind at 1.
  destruct (shopifyAdminGraphQL src e up variantQuery
              (Some (object [("id", body_field req "productId")])) start)
    as [[varData | x] w1] eqn:Hcall.
  2: { destruct (sends_graphql src e up variantQuery
                   (Some (object [("id", body_field req "productId")])) start)
         as (more & Hmore & _ & Hone).
       rewrite Hcall in Hmore. cbn [snd] in *. rewrite Hmore. cbn [calls start app].
       intros H. rewrite H in Hone. lia. }
  apply graphql_Ret_all in Hcall as (Htok & (st & top & errors & Hup & Hok & _ & _ & Hdata) & ->).
  cbn [calls start app console].
  rewrite bind_get.
  destruct (prop varData "product") as [product | x] eqn:Hproduct; [| discriminate].
  unfold bind at 1.
  destruct (truthy product) eqn:Htruthy; cbn [negb]; [| discriminate].
  rewrite bind_get.
  destruct (prop product "variants") as [variants | x] eqn:Hvariants; [| discriminate].
  rewrite bind_get.
  destruct (prop variants "edges") as [edges | x] eqn:Hedges; [| discriminate].
  rewrite bind_get.
  destruct (prop edges "length") as [len | x] eqn:Hlen; [| discriminate].
  cbn [ret]. destruct (truthy len) eqn:Hsome; cbn [negb]; [| discriminate].
  intros _. split; [reflexivity | split; [reflexivity | split; [assumption |]]].
  exists st, top, varData, product, variants, edges, len.
  repeat split; assumption.
Qed.

(** X14.  The order sent upstream has one line item, holding the
    request's quantity as it came (no conversion, no check) and the id
    of the product's first variant, and the one tag
    "WeChat Mini Program". *)
Theorem order_line_item src e up req data variantId :
  truthy (body_field req "productId") = true ->
  truthy (body_field req "quantity") = true ->
  truthy (ADMIN_TOKEN src e) = true ->
  answers_data up [] (variant_request_to src e (body_field req "productId")) data ->
  first_variant data variantId ->
  exists order,
    nth_error (calls (snd (create_order src e up req start))) 1 =
      Some (order_request_to src e (JObj order)) /\
    assoc "lineItems" order =
      Some (JArr [object [("quantity", body_field req "quantity");
                          ("variantId", variantId)]]) /\
    assoc "tags" order = Some (JArr [JStr "WeChat Mini Program"]).
Proof.
  intros Hpid Hqty Htok Hup Hvar.
  rewrite (create_order_calls src e up req data variantId) by assumption.
  unfold orderInput. unfold object at 2.
  destruct (truthy_defined (or_else (body_field req "email") (str "no-email@example.com")))
    as [m Hm].
  { apply truthy_or_else. reflexivity. }
  destruct (truthy_defined (or_else (body_field req "note")
                              (str "Order from WeChat Mini Program"))) as [n Hn].
  { apply truthy_or_else. reflexivity. }
  rewrite Hm, Hn. eexists. split; [reflexivity |]. split; reflexivity.
Qed.

(** *** The further properties on concrete runs *)

Lemma get_stock_missing_productId_witness :
  get_stock Run.engine server_js Run.env (scripted [Run.inventory 5])
    {| query := [("productId", JStr "")]; req_body := None |} start =
    (Ret {| status := 400; sent := JObj [("error", JStr "Missing productId")] |}, start).
Proof.
  apply get_stock_missing_productId. reflexivity.
Defined.

Lemma get_stock_not_found_witness :
  get_stock Run.engine server_js Run.env
    (scripted [Run.graphql [("product", JNull)]]) Run.stock_req start =
    (Ret {| status := 404; sent := JObj [("error", JStr "Product not found")] |},
     {| calls := [stock_request_to server_js Run.env (str Run.product_id)];
        console := [] |}).
Proof.
  apply (get_stock_not_found Run.engine server_js Run.env
           (scripted [Run.graphql [("product", JNull)]]) Run.stock_req
           [("product", JNull)]).
  - reflexivity.
  - reflexivity.
  - apply scripted_answers. reflexivity.
  - reflexivity.
Defined.

Lemma get_stock_one_query_witness :
  calls (snd (get_stock Run.engine part_000 Run.env (scripted [Run.unauthorized])
                Run.stock_req start)) =
    [graphql_request part_000 Run.env stockQuery
       (Some (JObj [("id", JStr Run.product_id)]))].
Proof.
  exact (get_stock_one_query Run.engine part_000 Run.env (scripted [Run.unauthorized])
           Run.stock_req eq_refl eq_refl).
Defined.

Lemma get_stock_upstream_status_witness :
  get_stock Run.engine server_js Run.env (scripted [Run.unauthorized]) Run.stock_req start =
    (Ret {| status := 500; sent := JObj [("error", JStr "Internal error")] |},
     {| calls := [stock_request_to server_js Run.env (str Run.product_id)];
        console :=
          [[LValue (str "Shopify HTTP error"); LValue (num 401);
            LValue (Some Run.unauthorized_body)];
           [LValue (str "GET /api/stock error");
            LError (Error (str "Shopify HTTP 401"))]] |}).
Proof.
  exact (get_stock_upstream_status Run.engine server_js Run.env
           (scripted [Run.unauthorized]) Run.stock_req 401 Run.unauthorized_body
           eq_refl eq_refl eq_refl eq_refl).
Defined.

Lemma graphql_errors_thrown_witness :
  shopifyAdminGraphQL server_js Run.env (scripted [Run.throttled]) stockQuery
    (Some (JObj [("id", JStr Run.product_id)])) start =
    (Throw (Error (str "Throttled")),
     {| calls := [stock_request_to server_js Run.env (str Run.product_id)];
        console := [[LValue (str "Shopify GraphQL errors");
                     LValue (Some (JArr Run.throttled_errors))]] |}).
Proof.
  exact (graphql_errors_thrown server_js Run.env (scripted [Run.throttled]) stockQuery
           (Some (JObj [("id", JStr Run.product_id)])) start 200
           [("errors", JArr Run.throttled_errors)] Run.throttled_errors
           eq_refl eq_refl eq_refl eq_refl).
Defined.

Lemma graphql_returns_iff_witness :
  shopifyAdminGraphQL server_js Run.env (scripted [Run.inventory 5]) stockQuery
    (Some (JObj [("id", JStr Run.product_id)])) start =
    (Ret (Some (JObj (Run.stock_data 5))),
     {| calls := [stock_request_to server_js Run.env (str Run.product_id)];
        console := [] |}).
Proof.
  apply (proj2 (graphql_returns_iff server_js Run.env (scripted [Run.inventory 5])
                  stockQuery (Some (JObj [("id", JStr Run.product_id)])) start
                  (Some (JObj (Run.stock_data 5)))
                  {| calls := [stock_request_to server_js Run.env (str Run.product_id)];
                     console := [] |})).
  split; [reflexivity |]. split; [| reflexivity].
  exists 200, (JObj [("data", JObj (Run.stock_data 5))]), None.
  repeat split.
Defined.

Lemma create_order_success_witness :
  create_order server_js Run.env (scripted [Run.one_variant; Run.order_created])
    (Run.order_req [("quantity", JNum 2)]) start =
    (Ret {| status := 200;
            sent := JObj [("success", JBool true); ("order", Run.created_order)] |},
     {| calls := [variant_request_to server_js Run.env (str Run.product_id);
                  order_request_to server_js Run.env
                    (orderInput (num 2) undefined undefined (str Run.variant_id))];
        console := [] |}).
Proof.
  apply (create_order_success server_js Run.env
           (scripted [Run.one_variant; Run.order_created])
           (Run.order_req [("quantity", JNum 2)])
           (Run.variant_data Run.one_edge) (str Run.variant_id)
           Run.created_data Run.created).
  - reflexivity.
  - reflexivity.
  - reflexivity.
  - apply scripted_answers. reflexivity.
  - exact one_variant_resolved.
  - apply scripted_answers. reflexivity.
  - reflexivity.
  - right. reflexivity.
Defined.

Lemma create_order_transport_failure_witness :
  create_order server_js Run.env
    (scripted [Run.one_variant; NetworkFailure "ECONNRESET"])
    (Run.order_req [("quantity", JNum 2)]) start =
    (Ret {| status := 500; sent := JObj [("error", JStr "Internal error")] |},
     {| calls := [variant_request_to server_js Run.env (str Run.product_id);
                  order_request_to server_js Run.env
                    (orderInput (num 2) undefined undefined (str Run.variant_id))];
        console := [[LValue (str "POST /api/create-order error");
                     LError (FetchError "ECONNRESET")]] |}).
Proof.
  apply (create_order_transport_failure server_js Run.env
           (scripted [Run.one_variant; NetworkFailure "ECONNRESET"])
           (Run.order_req [("quantity", JNum 2)])
           (Run.variant_data Run.one_edge) (str Run.variant_id) "ECONNRESET").
  - reflexivity.
  - reflexivity.
  - reflexivity.
  - apply scripted_answers. reflexivity.
  - exact one_variant_resolved.
  - reflexivity.
Defined.

Lemma mutation_needs_variant_witness :
  truthy (ADMIN_TOKEN server_js Run.env) = true /\
  exists st top data product variants edges len,
    scripted [Run.one_variant; Run.order_refused] []
      (variant_request_to server_js Run.env (str Run.product_id)) =
      HttpResponse st (Some top) /\
    ok st = true /\
    prop (Some top) "data" = Ret data /\
    prop data "product" = Ret product /\
    truthy product = true /\
    prop product "variants" = Ret variants /\
    prop variants "edges" = Ret edges /\
    prop edges "length" = Ret len /\
    truthy len = true.
Proof.
  exact (proj2 (proj2 (mutation_needs_variant server_js Run.env
                         (scripted [Run.one_variant; Run.order_refused])
                         (Run.order_req [("quantity", JNum 2)]) eq_refl))).
Defined.

Lemma order_line_item_witness :
  exists order,
    nth_error (calls (snd (create_order server_js Run.env
                             (scripted [Run.one_variant; Run.order_created])
                             (Run.order_req [("quantity", JStr "2")]) start))) 1 =
      Some (order_request_to server_js Run.env (JObj order)) /\
    assoc "lineItems" order =
      Some (JArr [JObj [("quantity", JStr "2"); ("variantId", JStr Run.variant_id)]]) /\
    assoc "tags" order = Some (JArr [JStr "WeChat Mini Program"]).
Proof.
  assert (Hup : answers_data (scripted [Run.one_variant; Run.order_created]) []
                   (variant_request_to server_js Run.env (str Run.product_id))
                   (Run.variant_data Run.one_edge)).
  { apply scripted_answers. reflexivity. }
  exact (order_line_item server_js Run.env
           (scripted [Run.one_variant; Run.order_created])
           (Run.order_req [("quantity", JStr "2")])
           (Run.variant_data Run.one_edge) (str Run.variant_id)
           eq_refl eq_refl eq_refl Hup one_variant_resolved).
Defined.
